(** * fyrd: remote task packaging and fan-out coordination

    A shallow embedding of [fyrd/helpers.py] (parapply, parapply_summary)
    and [fyrd/submission_scripts.py] (Script, Function, _sort_imports),
    with the properties of the design document stated over it.

    Conventions of the embedding:
    - Python exceptions are values of [exn]; a call that may raise returns
      a [result].
    - Calls with observable effects on the job backend and the logger run
      in the monad [M], which threads a trace of [event]s next to the
      result.
    - numpy and pandas are libraries outside this repository; the few
      entry points the code calls are modelled in [Module Pandas] after
      their documented behaviour. A cell holds the exact value of a
      number ([Qc]) or [None] for NaN; the functions applied to columns
      and cells, with whatever rounding they do, are parameters. *)

From Stdlib Require Import ZArith QArith Qcanon Lia Ascii.
From stdpp Require Import gmap strings list fin_maps pretty sorting.

(** ** Python values, exceptions and results *)

Inductive pyval :=
| PyNone
| PyBool (b : bool)
| PyInt (z : Z)
| PyFloat (q : Qc)
| PyStr (s : string).

(** [isinstance(v, int)]: [bool] is a subclass of [int]. *)
Definition isinstance_int (v : pyval) : bool :=
  match v with
  | PyInt _ | PyBool _ => true
  | _ => false
  end.

(** [int(v)] for the values that are instances of [int]. *)
Definition int_value (v : pyval) : Z :=
  match v with
  | PyInt z => z
  | PyBool true => 1
  | _ => 0
  end.

(** [str(v)] as [str.format] renders it; only integers and booleans reach
    the one call that formats a value, the job name. *)
Definition pystr (v : pyval) : string :=
  match v with
  | PyNone => "None"
  | PyBool true => "True"
  | PyBool false => "False"
  | PyInt z => pretty z
  | PyFloat _ => "<float>"
  | PyStr s => s
  end.

Inductive exn :=
| ValueError (msg : string)
| IOError
| AttributeError (msg : string)
| UnboundLocalError (name : string)
| TypeError (msg : string)
| PicklingError.

Inductive result (A : Type) :=
| Ok (a : A)
| Raise (e : exn).
Arguments Ok {A} a.
Arguments Raise {A} e.

Definition is_Ok {A} (r : result A) : bool :=
  match r with Ok _ => true | Raise _ => false end.

(** ** Numbers and the pandas fragment used by the helpers *)

Module Pandas.

(** A cell is a number or NaN. *)
Abbreviation cell := (option Qc).

Inductive label :=
| LInt (z : Z)
| LStr (s : string).

#[global] Instance label_eq_dec : EqDecision label.
Proof. solve_decision. Defined.

Abbreviation Series := (list (label * option Qc)).

(** A frame: column labels, and rows carrying their index label. *)
Record DataFrame := mkDF {
  df_columns : list label;
  df_rows : list (label * list cell)
}.

Inductive pdobj :=
| PSeries (s : Series)
| PFrame (df : DataFrame).

(** What a user function does with one column: reduce it to a scalar
    (as a mean does) or map it to a column of values. *)
Inductive apply_fn :=
| Reducer (f : list cell -> cell)
| Mapper (f : list cell -> list cell).

Definition nrows (df : DataFrame) : nat := length (df_rows df).

Definition column (j : nat) (df : DataFrame) : list cell :=
  map (fun r => nth j (snd r) None) (df_rows df).

Definition range_labels (n : nat) : list label :=
  map (fun i => LInt (Z.of_nat i)) (seq 0 n).


(** [DataFrame.apply(func)] on the default axis: [func] sees each column. *)
Definition DataFrame_apply (f : apply_fn) (df : DataFrame) : pdobj :=
  match f with
  | Reducer g =>
      PSeries (imap (fun j c => (c, g (column j df))) (df_columns df))
  | Mapper g =>
      let cols := imap (fun j _ => g (column j df)) (df_columns df) in
      PFrame {| df_columns := df_columns df;
                df_rows := imap (fun i r =>
                             (fst r, map (fun col => nth i col None) cols))
                           (df_rows df) |}
  end.

(** [DataFrame.applymap(func)]: [func] sees each cell. *)
Definition DataFrame_applymap (g : cell -> cell) (df : DataFrame) : DataFrame :=
  {| df_columns := df_columns df;
     df_rows := map (fun r => (fst r, map g (snd r))) (df_rows df) |}.

(** [Series.apply(func)]: [func] sees each value. *)
Definition Series_apply (g : cell -> cell) (s : Series) : Series :=
  map (fun p => (fst p, g (snd p))) s.

(** *** numpy.array_split *)

Fixpoint cumsum_from (acc : nat) (l : list nat) : list nat :=
  match l with
  | [] => []
  | x :: l' => (acc + x) :: cumsum_from (acc + x) l'
  end.

Definition cumsum : list nat -> list nat := cumsum_from 0.

(** [l[st:en]] for [0 <= st <= en]. *)
Definition slice {A} (st en : nat) (l : list A) : list A :=
  take (en - st) (drop st l).

(** The sizes numpy gives to [Nsections] sections of [Ntotal] items: the
    first [Ntotal mod Nsections] sections hold one more item. *)
Definition section_sizes (Ntotal Nsections : nat) : list nat :=
  replicate (Ntotal mod Nsections) (Ntotal / Nsections + 1)
  ++ replicate (Nsections - Ntotal mod Nsections) (Ntotal / Nsections).

(** Modelled from the spec: [numpy.array_split] is a library function
    outside this repository. The design asks for [sections] shards along
    the primary axis, as close to equal-sized as the count allows, in
    order; numpy cuts at the cumulative sums of [section_sizes] and
    refuses a count that is not positive. *)
Definition array_split {A} (ary : list A) (sections : Z)
  : result (list (list A)) :=
  if (sections <=? 0)%Z
  then Raise (ValueError "number sections must be larger than 0.")
  else
    let Nsections := Z.to_nat sections in
    let div_points := cumsum (0 :: section_sizes (length ary) Nsections) in
    Ok (map (fun i => slice (nth i div_points 0) (nth (S i) div_points 0) ary)
            (seq 0 Nsections)).

(** On a frame the split runs along the rows; every shard keeps the
    columns and the index labels of its rows. *)
Definition array_split_df (df : DataFrame) (sections : Z)
  : result (list DataFrame) :=
  match array_split (df_rows df) sections with
  | Ok parts => Ok (map (mkDF (df_columns df)) parts)
  | Raise e => Raise e
  end.

(** *** pandas.concat *)

Definition pad_to (n : nat) (l : list cell) : list cell :=
  l ++ replicate (n - length l) None.

(** Union of label lists, in order of first appearance. *)
Definition union_labels (ls : list (list label)) : list label :=
  remove_dups (mjoin ls).

Definition series_lookup (l : label) (s : Series) : cell :=
  match list_find (fun p => fst p = l) s with
  | Some (_, p) => snd p
  | None => None
  end.

Definition frame_row (l : label) (df : DataFrame) : list cell :=
  match list_find (fun r => fst r = l) (df_rows df) with
  | Some (_, r) => pad_to (length (df_columns df)) (snd r)
  | None => replicate (length (df_columns df)) None
  end.

Definition all_series (objs : list pdobj) : option (list Series) :=
  mapM (fun o => match o with PSeries s => Some s | PFrame _ => None end) objs.

Definition all_frames (objs : list pdobj) : option (list DataFrame) :=
  mapM (fun o => match o with PFrame d => Some d | PSeries _ => None end) objs.

(** pandas keeps an axis as it is when every object carries the same
    labels on it, and unites the labels otherwise. *)
Definition same_labels (ls : list (list label)) : bool :=
  match ls with
  | [] => true
  | l :: ls' => forallb (fun l' => bool_decide (l' = l)) ls'
  end.

Definition reindex_columns (cols : list label) (df : DataFrame)
  : list (label * list cell) :=
  map (fun r =>
         (fst r,
          map (fun c => match list_find (fun c' => c' = c) (df_columns df) with
                        | Some (j, _) => nth j (snd r) None
                        | None => None
                        end) cols))
      (df_rows df).

(** Stacking frames by rows ([axis=0]). *)
Definition concat_frames_rows (dfs : list DataFrame) : DataFrame :=
  if same_labels (map df_columns dfs)
  then {| df_columns := default [] (head (map df_columns dfs));
          df_rows := mjoin (map df_rows dfs) |}
  else
    let cols := union_labels (map df_columns dfs) in
    {| df_columns := cols;
       df_rows := mjoin (map (reindex_columns cols) dfs) |}.

(** Putting frames side by side ([axis=1]). *)
Definition concat_frames_cols (dfs : list DataFrame) : DataFrame :=
  let idx := union_labels (map (fun d => map fst (df_rows d)) dfs) in
  {| df_columns := mjoin (map df_columns dfs);
     df_rows := map (fun l => (l, mjoin (map (frame_row l) dfs))) idx |}.

(** Putting series side by side ([axis=1]): one column per series, named
    by its position; values are aligned by position when the series share
    their index, by label otherwise. *)
Definition concat_series_cols (ss : list Series) : DataFrame :=
  let idxs := map (map fst) ss in
  {| df_columns := range_labels (length ss);
     df_rows :=
       if same_labels idxs
       then imap (fun i l => (l, map (fun s => nth i (map snd s) None) ss))
                 (default [] (head idxs))
       else map (fun l => (l, map (series_lookup l) ss)) (union_labels idxs) |}.

(** Modelled from the spec: [pandas.concat] is a library function outside
    this repository. The design asks for the ordered results to be
    concatenated along the merge axis, 0 stacking rows and 1 stacking
    columns; this is [pd.concat(objs, axis=axis)] for lists of series or
    lists of frames. *)
Definition concat (objs : list pdobj) (axis : Z) : result pdobj :=
  match objs with
  | [] => Raise (ValueError "No objects to concatenate")
  | _ =>
    match all_series objs, all_frames objs with
    | Some ss, _ =>
        if (axis =? 0)%Z then Ok (PSeries (mjoin ss))
        else if (axis =? 1)%Z then Ok (PFrame (concat_series_cols ss))
        else Raise (ValueError "No axis named")
    | None, Some dfs =>
        if (axis =? 0)%Z then Ok (PFrame (concat_frames_rows dfs))
        else if (axis =? 1)%Z then Ok (PFrame (concat_frames_cols dfs))
        else Raise (ValueError "No axis named")
    | None, None => Raise (TypeError "cannot concatenate mixed objects")
    end
  end.

(** *** Observing frames and series *)


End Pandas.

(** ** Effects: the job backend and the logger *)

Abbreviation kwds := (list (string * pyval)).

(** What [inspect] tells about a module: its name, its file if it has
    one, and its members that are modules (alias, module name). *)
Record pymodule := {
  mod_name : string;
  mod_file : option string;
  mod_members : list (string * string)
}.

(** A plain function object, made by [def] or [lambda]: its [__name__]
    and [__module__] attributes, which such an object always has and
    lets be assigned; the module [inspect.getmodule] finds for it, which
    is the entry of [sys.modules] under its [__module__], if any; and
    what calling it does inside [apply] (on a column) and [applymap] (on
    a cell), given the extra positional and keyword arguments. *)
Record pyfunc := {
  fn_name : string;
  fn_module : string;
  fn_rootmod : option pymodule;
  fn_series : list pyval -> kwds -> Pandas.apply_fn;
  fn_cell : list pyval -> kwds -> Pandas.cell -> Pandas.cell
}.

(** One submitted job: [Job(sub_func, (d, func, args, pandas_kwds),
    profile=profile, name=nm, imports=imports, **fyrd_kwds)]. *)
Record job := {
  job_index : nat;
  job_name : string;
  job_applymap : bool;
  job_shard : Pandas.DataFrame;
  job_imports : list string;
  job_kwds : kwds
}.

(** What a run does to its collaborators, in order. [EvSplit] records
    that [np.array_split] was called, with the number of sections asked
    for, whether the call then returns shards or raises; [EvConcat]
    likewise records the call of [pd.concat]. *)
Inductive event :=
| EvSplit (sections : Z)
| EvSubmit (j : job)
| EvGet (index : nat)
| EvLog (msg level : string)
| EvConcat (axis : Z).

Inductive job_outcome :=
| JobDone
| JobFailed (e : exn).

(** The collaborators of [parapply] that live outside the two modules:
    [fyrd.options.split_keywords] and the fate of each submitted job, by
    shard position. *)
Record backend := {
  split_keywords : kwds -> kwds * kwds;
  outcome : nat -> job_outcome
}.

(** A computation that logs events and may raise. *)
Definition M (A : Type) : Type := (list event * result A)%type.

Definition retM {A} (a : A) : M A := ([], Ok a).

Definition raiseM {A} (e : exn) : M A := ([], Raise e).

Definition tell (evs : list event) : M unit := (evs, Ok tt).

Definition liftM {A} (r : result A) : M A := ([], r).

Definition bindM {A B} (m : M A) (k : A -> M B) : M B :=
  match m with
  | (t, Ok a) => let '(t', r) := k a in (t ++ t', r)
  | (t, Raise e) => (t, Raise e)
  end.

(** [try: m except: h] where the handler sees the exception. *)
Definition try_except {A} (m : M A) (h : exn -> M A) : M A :=
  match m with
  | (t, Ok a) => (t, Ok a)
  | (t, Raise e) => let '(t', r) := h e in (t ++ t', r)
  end.

Notation "'let*' x ':=' m 'in' k" := (bindM m (fun x => k))
  (at level 10, x name, m at level 100, k at level 200).

(** ** fyrd/helpers.py *)

Module Helpers.
Import Pandas.

(** The [imports] argument: absent or empty, one string, or a list. *)
Inductive pyimports :=
| ImpNone
| ImpStr (s : string)
| ImpList (l : list string).

Definition sane_imports : list string :=
  ["import numpy as np"; "import numpy"; "import scipy as sp";
   "import sp"; "import pandas as pd"; "import pandas";
   "from matplotlib import pyplot as plt";
   "from scipy import stats"].

(** Lines 145-154: normalise [imports] and append the fixed list. An
    empty string or list is falsy. *)
Definition job_import_list (imports : pyimports) : list string :=
  match imports with
  | ImpNone | ImpStr "" | ImpList [] => []
  | ImpStr s => [s]
  | ImpList l => l
  end ++ sane_imports.

(** [if k not in d: d[k] = v] *)
Definition set_default (k : string) (v : pyval) (d : kwds) : kwds :=
  if bool_decide (k ∈ map fst d) then d else d ++ [(k, v)].

Definition _run_apply (df : pdobj) (func : pyfunc) (args : list pyval)
    (pandas_kwds : kwds) : result pdobj :=
  match df with
  | PFrame d => Ok (DataFrame_apply (fn_series func args pandas_kwds) d)
  | PSeries s => Ok (PSeries (Series_apply (fn_cell func args pandas_kwds) s))
  end.

Definition _run_applymap (df : pdobj) (func : pyfunc) (args : list pyval)
    (pandas_kwds : kwds) : result pdobj :=
  match df with
  | PFrame d =>
      Ok (PFrame (DataFrame_applymap (fn_cell func args pandas_kwds) d))
  | PSeries _ =>
      Raise (AttributeError "'Series' object has no attribute 'applymap'")
  end.

Definition sub_func (applymap : bool) :=
  if applymap then _run_applymap else _run_apply.

(** Lines 157-166: one job per shard, named [name_count_of_jobs] with
    [count] starting at 1; each is submitted as soon as it is built. *)
Fixpoint submit_jobs (name : string) (jobs : pyval) (applymap : bool)
    (imports : list string) (fyrd_kwds : kwds) (count : nat)
    (dfs : list DataFrame) : M (list job) :=
  match dfs with
  | [] => retM []
  | d :: dfs' =>
      let nm := name +:+ "_" +:+ pretty count +:+ "_of_" +:+ pystr jobs in
      let j := {| job_index := count - 1; job_name := nm;
                  job_applymap := applymap; job_shard := d;
                  job_imports := imports; job_kwds := fyrd_kwds |} in
      let* _ := tell [EvSubmit j] in
      let* outs := submit_jobs name jobs applymap imports fyrd_kwds
                     (S count) dfs' in
      retM (j :: outs)
  end.

(** [out.get()]: blocks on the backend; a finished job yields what
    [sub_func] computes on its shard. *)
Definition Job_get (B : backend) (func : pyfunc) (args : list pyval)
    (pandas_kwds : kwds) (out : job) : M pdobj :=
  let* _ := tell [EvGet (job_index out)] in
  match outcome B (job_index out) with
  | JobDone =>
      liftM (sub_func (job_applymap out) (PFrame (job_shard out))
               func args pandas_kwds)
  | JobFailed e => raiseM e
  end.

Definition get_failed_msg : string :=
  "Result getting failed, most likely one of the child " +:+
  "jobs crashed, check the error files".

(** Lines 169-176. *)
Fixpoint collect (B : backend) (func : pyfunc) (args : list pyval)
    (pandas_kwds : kwds) (outs : list job) (results : list pdobj)
    : M (list pdobj) :=
  match outs with
  | [] => retM results
  | out :: outs' =>
      let* r := try_except (Job_get B func args pandas_kwds out)
                  (fun e => match e with
                            | IOError =>
                                let* _ := tell [EvLog get_failed_msg "critical"] in
                                raiseM e
                            | _ => raiseM e
                            end) in
      collect B func args pandas_kwds outs' (results ++ [r])
  end.

(** Lines 179-183. *)
Definition merge (results : list pdobj) (merge_axis : Z) : M pdobj :=
  let* _ := tell [EvConcat merge_axis] in
  try_except (liftM (concat results merge_axis))
    (fun e => match e with
              | ValueError _ =>
                  let* _ := tell [EvLog "DataFrame concatenation failed!"
                                        "critical"] in
                  raiseM e
              | _ => raiseM e
              end).

(** Lines 122-123: the check of the [jobs] argument. *)
Definition jobs_check (jobs : pyval) : result unit :=
  if negb (isinstance_int jobs)
  then Raise (ValueError "Jobs argument must be an integer.")
  else Ok tt.

Definition parapply (B : backend) (jobs : pyval) (df : DataFrame)
    (func : pyfunc) (args : list pyval) (applymap : bool) (merge_axis : Z)
    (merge_apply : bool) (name : string) (imports : pyimports)
    (kwds : kwds) : M pdobj :=
  let '(fyrd_kwds, pandas_kwds) := split_keywords B kwds in
  if negb (isinstance_int jobs)
  then raiseM (ValueError "Jobs argument must be an integer.")
  else
    let fyrd_kwds := set_default "clean_files" (PyBool true) fyrd_kwds in
    let fyrd_kwds := set_default "clean_outputs" (PyBool true) fyrd_kwds in
    let* dfs := (let* _ := tell [EvSplit (int_value jobs)] in
                 liftM (array_split_df df (int_value jobs))) in
    let* _ := match fn_rootmod func with
              | Some _ => retM tt
              | None => raiseM (AttributeError
                          "'NoneType' object has no attribute '__name__'")
              end in
    let imports := job_import_list imports in
    let* outs := submit_jobs name jobs applymap imports fyrd_kwds 1 dfs in
    let* results := collect B func args pandas_kwds outs [] in
    let* out := merge results merge_axis in
    if merge_apply
    then liftM (sub_func applymap out func args pandas_kwds)
    else retM out.



(** *** Observing a run *)

(** The shard indices awaited in a trace, in order. *)
Definition gets (t : list event) : list nat :=
  omap (fun ev => match ev with EvGet i => Some i | _ => None end) t.

(** The jobs built for the shards [dfs], counting from [count]. *)
Definition jobs_for (name : string) (jobs : pyval) (applymap : bool)
    (imports : list string) (fyrd_kwds : kwds) (count : nat)
    (dfs : list DataFrame) : list job :=
  imap (fun n d =>
          {| job_index := count + n - 1;
             job_name := name +:+ "_" +:+ pretty (count + n) +:+ "_of_"
                         +:+ pystr jobs;
             job_applymap := applymap; job_shard := d;
             job_imports := imports; job_kwds := fyrd_kwds |}) dfs.

(** What a finished job computed on its shard. *)
Definition remote_result (func : pyfunc) (args : list pyval) (kw : kwds)
    (j : job) : pdobj :=
  if job_applymap j
  then PFrame (DataFrame_applymap (fn_cell func args kw) (job_shard j))
  else DataFrame_apply (fn_series func args kw) (job_shard j).

(** The jobs submitted in a trace, in order. *)
Definition submits (t : list event) : list job :=
  omap (fun ev => match ev with EvSubmit j => Some j | _ => None end) t.

(** The log lines of a trace, in order: (message, level). *)
Definition logs (t : list event) : list (string * string) :=
  omap (fun ev => match ev with EvLog m l => Some (m, l) | _ => None end) t.

End Helpers.

(** ** String operations of the Python standard library *)

Module PyString.

Definition nl : string := String "010"%char "".

(** [s.startswith(p)] *)
Definition startswith (p s : string) : bool := String.prefix p s.

(** [s.split(sep)] for a one-character separator. *)
Fixpoint split_on (sep : ascii) (s : string) : list string :=
  match s with
  | EmptyString => [EmptyString]
  | String c s' =>
      if Ascii.eqb c sep then EmptyString :: split_on sep s'
      else match split_on sep s' with
           | [] => [String c EmptyString]
           | w :: ws => String c w :: ws
           end
  end.

(** [sep.join(l)] *)
Fixpoint join (sep : string) (l : list string) : string :=
  match l with
  | [] => ""
  | [x] => x
  | x :: l' => x +:+ sep +:+ join sep l'
  end.

Definition is_space (c : ascii) : bool :=
  let n := Ascii.nat_of_ascii c in
  (Nat.leb 9 n && Nat.leb n 13) || (Nat.leb 28 n && Nat.leb n 32).

(** [s.rstrip()] *)
Fixpoint rstrip (s : string) : string :=
  match s with
  | EmptyString => EmptyString
  | String c s' =>
      match rstrip s' with
      | EmptyString => if is_space c then EmptyString else String c EmptyString
      | r => String c r
      end
  end.

(** [s.count(c)] for a one-character needle. *)
Fixpoint count_char (c : ascii) (s : string) : nat :=
  match s with
  | EmptyString => 0
  | String c' s' => (if Ascii.eqb c' c then 1 else 0) + count_char c s'
  end.

(** [posixpath.join(a, b)] *)
Definition path_join (a b : string) : string :=
  if startswith "/" b then b
  else if bool_decide (a = "") || String.eqb (String.substring (String.length a - 1) 1 a) "/"
       then a +:+ b
       else a +:+ "/" +:+ b.

(** A string is truthy when it is not empty. *)
Definition truthy (s : string) : bool := negb (String.eqb s "").

End PyString.

(** ** fyrd/submission_scripts.py *)

Module SubmissionScripts.
Import PyString.

(** *** Files and objects *)

(** The file system is a finite map from the existing paths to their
    content, [gmap string string]. *)

(** [os.path.exists] *)
Definition path_exists (fs : gmap string string) (p : string) : bool :=
  match fs !! p with
  | Some _ => true
  | None => false
  end.

(** [with open(p, 'w') as f: f.write(text)] *)
Definition write_file (p text : string) (fs : gmap string string)
  : gmap string string := <[p := text]> fs.

(** Values an attribute of a [Script] or [Function] object can hold. *)
Inductive attr :=
| ANone
| ABool (b : bool)
| AStr (s : string)
| AFunc (f : pyfunc)
| AArgs (args : list pyval)
| AMethod (owner name : string).

Inductive pyclass :=
| ClsScript
| ClsFunction.

(** An instance: its class and its [__dict__]. *)
Record pyobject := {
  ob_class : pyclass;
  ob_dict : gmap string attr
}.

Definition set_attr (name : string) (v : attr) (o : pyobject) : pyobject :=
  {| ob_class := ob_class o; ob_dict := <[name := v]> (ob_dict o) |}.

(** Names every class inherits from [object] or receives at creation. *)
Definition object_attrs : list string :=
  ["__class__"; "__delattr__"; "__dict__"; "__dir__"; "__doc__"; "__eq__";
   "__format__"; "__ge__"; "__getattribute__"; "__gt__"; "__hash__";
   "__init__"; "__init_subclass__"; "__le__"; "__lt__"; "__module__";
   "__ne__"; "__new__"; "__reduce__"; "__reduce_ex__"; "__repr__";
   "__setattr__"; "__sizeof__"; "__str__"; "__subclasshook__";
   "__weakref__"].

(** The attributes the class bodies define. *)
Definition class_dict (c : pyclass) : gmap string attr :=
  match c with
  | ClsScript =>
      list_to_map
        [("written", ABool false);
         ("__init__", AMethod "Script" "__init__");
         ("write", AMethod "Script" "write");
         ("clean", AMethod "Script" "clean");
         ("__getattr__", AMethod "Script" "__getattr__");
         ("__repr__", AMethod "Script" "__repr__");
         ("__str__", AMethod "Script" "__str__")]
  | ClsFunction =>
      list_to_map
        [("__init__", AMethod "Function" "__init__");
         ("write", AMethod "Function" "write");
         ("clean", AMethod "Function" "clean")]
  end.

(** Method resolution order, [object] left out. *)
Definition mro (c : pyclass) : list pyclass :=
  match c with
  | ClsScript => [ClsScript]
  | ClsFunction => [ClsFunction; ClsScript]
  end.

Fixpoint class_lookup (cs : list pyclass) (name : string) : option attr :=
  match cs with
  | [] =>
      if bool_decide (name ∈ object_attrs)
      then Some (AMethod "object" name) else None
  | c :: cs' =>
      match class_dict c !! name with
      | Some v => Some v
      | None => class_lookup cs' name
      end
  end.

(** Normal attribute lookup: the instance, then the classes. *)
Definition lookup_defined (o : pyobject) (name : string) : option attr :=
  match ob_dict o !! name with
  | Some v => Some v
  | None => class_lookup (mro (ob_class o)) name
  end.

(** [Script.__getattr__], lines 59-62; Python calls it only when normal
    lookup fails. [self.file_name] inside it is itself an attribute
    read, and [os.path.exists] wants a path. *)
Definition Script__getattr__ (fs : gmap string string) (self : pyobject)
    (name : string) : result attr :=
  if String.eqb name "exists" then
    match lookup_defined self "file_name" with
    | Some (AStr p) => Ok (ABool (path_exists fs p))
    | _ => Raise (TypeError "stat: path should be string")
    end
  else Ok ANone.

(** [obj.name] *)
Definition getattr (fs : gmap string string) (o : pyobject) (name : string)
  : result attr :=
  match lookup_defined o name with
  | Some v => Ok v
  | None => Script__getattr__ fs o name
  end.

(** *** Script *)

(** What the interpreter and the sibling modules provide. *)
Record runtime := {
  abspath : string -> string;
  path_split : string -> string * string;
  path_splitext : string -> string * string;
  executable : string;
  (** [_run.FUNC_RUNNER.format(name=, path=, modimpstr=, imports=,
      pickle_file=, out_file=)] *)
  FUNC_RUNNER : string -> string -> string -> string -> string -> string
                -> string;
  (** [_run.indent] *)
  indent : string -> string -> string;
  (** the modules among this module's globals: (name, module name) *)
  module_globals : list (string * string);
  (** [dill.dump]: the bytes, or a failure to serialise *)
  dumps : pyfunc -> option (list pyval) -> option string;
  (** [sys.modules.get]: the loaded module of that name, if any *)
  sys_modules : string -> option pymodule
}.

(** [Script.__init__], lines 37-40. *)
Definition Script__init__ (rt : runtime) (cls : pyclass)
    (d : gmap string attr) (file_name script : string) : pyobject :=
  {| ob_class := cls;
     ob_dict := <["file_name" := AStr (abspath rt file_name)]>
                  (<["script" := AStr script]> d) |}.

Definition new_Script (rt : runtime) (file_name script : string) : pyobject :=
  Script__init__ rt ClsScript ∅ file_name script.

(** [Script.write], lines 42-51: the object and the file system after the
    call, and what the call returns. *)
Definition Script_write (overwrite : bool) (self : pyobject)
    (fs : gmap string string)
  : pyobject * gmap string string * result attr :=
  match getattr fs self "file_name", getattr fs self "script" with
  | Ok (AStr file_name), Ok (AStr script) =>
      if overwrite || negb (path_exists fs file_name)
      then (set_attr "written" (ABool true) self,
            write_file file_name (script +:+ nl) fs,
            Ok (AStr file_name))
      else (self, fs, Ok ANone)
  | Raise e, _ => (self, fs, Raise e)
  | _, Raise e => (self, fs, Raise e)
  | _, _ => (self, fs, Raise (TypeError "expected str"))
  end.

(** [Function.write], lines 273-278: the payload first, then the parent's
    write, whose return value is dropped. Opening with ['wb'] empties the
    file before anything is serialised. *)
Definition Function_write (rt : runtime) (overwrite : bool)
    (self : pyobject) (fs : gmap string string)
  : pyobject * gmap string string * result attr :=
  match getattr fs self "pickle_file" with
  | Ok (AStr pickle_file) =>
      let fs1 := write_file pickle_file "" fs in
      match getattr fs1 self "function", getattr fs1 self "args" with
      | Ok (AFunc f), Ok a =>
          let args := match a with AArgs l => Some l | _ => None end in
          match dumps rt f args with
          | Some bytes =>
              let fs2 := write_file pickle_file bytes fs1 in
              let '(self', fs3, r) := Script_write overwrite self fs2 in
              match r with
              | Ok _ => (self', fs3, Ok ANone)
              | Raise e => (self', fs3, Raise e)
              end
          | None => (self, fs1, Raise PicklingError)
          end
      | Raise e, _ => (self, fs1, Raise e)
      | _, Raise e => (self, fs1, Raise e)
      | _, _ => (self, fs1, Raise PicklingError)
      end
  | Ok _ => (self, fs, Raise (TypeError "expected str"))
  | Raise e => (self, fs, Raise e)
  end.

(** [obj.write(overwrite)] dispatches on the class. *)
Definition write (rt : runtime) (overwrite : bool) (self : pyobject)
    (fs : gmap string string)
  : pyobject * gmap string string * result attr :=
  match ob_class self with
  | ClsScript => Script_write overwrite self fs
  | ClsFunction => Function_write rt overwrite self fs
  end.

(** Truth value of an attribute, as [if] and [and] test it. *)
Definition is_truthy (a : attr) : bool :=
  match a with
  | ANone => false
  | ABool b => b
  | AStr s => truthy s
  | AArgs l => negb (bool_decide (l = []))
  | AFunc _ | AMethod _ _ => true
  end.

(** [os.remove] of a path that exists. *)
Definition remove_file (p : string) (fs : gmap string string)
  : gmap string string := delete p fs.

(** [Script.clean], lines 53-57: [self.written and self.exists] reads
    [exists] only when [written] is true. *)
Definition Script_clean (self : pyobject) (fs : gmap string string)
  : gmap string string * result attr :=
  match getattr fs self "written" with
  | Raise e => (fs, Raise e)
  | Ok w =>
      if is_truthy w then
        match getattr fs self "exists" with
        | Raise e => (fs, Raise e)
        | Ok ex =>
            if is_truthy ex then
              match getattr fs self "file_name" with
              | Ok (AStr file_name) => (remove_file file_name fs, Ok ANone)
              | Ok _ => (fs, Raise (TypeError "remove: path should be string"))
              | Raise e => (fs, Raise e)
              end
            else (fs, Ok ANone)
        end
      else (fs, Ok ANone)
  end.

(** [if os.path.isfile(p): os.remove(p)] for the attribute [name]. *)
Definition remove_if_file (self : pyobject) (name : string)
    (fs : gmap string string) : gmap string string * result unit :=
  match getattr fs self name with
  | Ok (AStr p) =>
      (if path_exists fs p then remove_file p fs else fs, Ok tt)
  | Ok _ => (fs, Raise (TypeError "stat: path should be string"))
  | Raise e => (fs, Raise e)
  end.

(** [Function.clean], lines 280-295. *)
Definition Function_clean (delete_output : bool) (self : pyobject)
    (fs : gmap string string) : gmap string string * result attr :=
  match getattr fs self "written" with
  | Raise e => (fs, Raise e)
  | Ok w =>
      if is_truthy w then
        match remove_if_file self "pickle_file" fs with
        | (fs1, Raise e) => (fs1, Raise e)
        | (fs1, Ok _) =>
            if delete_output then
              match remove_if_file self "outfile" fs1 with
              | (fs2, Raise e) => (fs2, Raise e)
              | (fs2, Ok _) => Script_clean self fs2
              end
            else Script_clean self fs1
        end
      else Script_clean self fs
  end.

(** [obj.clean(delete_output)] dispatches on the class; [Script.clean]
    ignores its argument. *)
Definition clean (delete_output : bool) (self : pyobject)
    (fs : gmap string string) : gmap string string * result attr :=
  match ob_class self with
  | ClsScript => Script_clean self fs
  | ClsFunction => Function_clean delete_output self fs
  end.

(** *** Imports of a Function *)

(** An entry of the import list: a string (a bare name or a whole
    statement) or a pair [(iname, name)] of the name a module is bound to
    and the module's own name. *)
Inductive import_entry :=
| ImpName (s : string)
| ImpPair (iname name : string).

#[global] Instance import_entry_eq_dec : EqDecision import_entry.
Proof. solve_decision. Defined.

(** The [imports] argument of [Function.__init__]. *)
Inductive imports_arg :=
| ArgNone
| ArgStr (s : string)
| ArgList (l : list import_entry)
| ArgTuple (l : list import_entry).

(** Iteration order of a Python [set]: it removes duplicates and fixes
    some order of the distinct elements, which depends on the hashes. *)
Record set_order := {
  iter_entries : list import_entry -> list import_entry;
  iter_strings : list string -> list string
}.

(** What every iteration order has in common: it lists the distinct
    elements, each once. *)
Definition set_order_valid (so : set_order) : Prop :=
  (forall l, iter_entries so l ≡ₚ l) /\ (forall l, iter_strings so l ≡ₚ l).

Definition py_set_entries (so : set_order) (l : list import_entry)
  : list import_entry := iter_entries so (remove_dups l).

Definition py_set_strings (so : set_order) (l : list string) : list string :=
  iter_strings so (remove_dups l).

(** [_sort_imports], lines 298-302. *)
Definition _sort_imports (x : import_entry) : string :=
  match x with
  | ImpPair _ name => name
  | ImpName s => s
  end.

(** [sorted(l, key=key)]: a stable sort, ascending in the key. *)
Fixpoint insert_by {A} (key : A -> string) (x : A) (l : list A) : list A :=
  match l with
  | [] => [x]
  | y :: l' =>
      if String.leb (key x) (key y) then x :: y :: l'
      else y :: insert_by key x l'
  end.

Definition sorted {A} (key : A -> string) (l : list A) : list A :=
  foldr (insert_by key) [] l.

Definition ignore_list : list string := ["os"; "sys"; "dill"; "pickle"].

(** ['try:\n    ' + stmt + '\nexcept ImportError:\n    pass'] *)
Definition guarded (stmt : string) : string :=
  "try:" +:+ nl +:+ "    " +:+ stmt +:+ nl +:+ "except ImportError:" +:+ nl
  +:+ "    pass".

(** One turn of the loop of lines 204-253: the statement appended to
    [filtered_imports], or [None] where the loop continues without. *)
Definition render_import (imp : import_entry) : option string :=
  match imp with
  | ImpPair iname name =>
      let names := split_on "."%char name in
      if bool_decide (iname ∈ ignore_list) then None
      else if startswith "@" name || startswith "@" iname then None
      else if negb (String.eqb iname name) then
        if Nat.ltb 1 (length names) then
          if negb (String.eqb (join "." (tail names)) iname) then
            Some (guarded ("from " +:+ join "." (removelast names)
                           +:+ " import " +:+ List.last names ""
                           +:+ " as " +:+ iname) +:+ nl)
          else
            Some (guarded ("from " +:+ hd "" names +:+ " import "
                           +:+ join "." (tail names)) +:+ nl)
        else
          Some (guarded ("import " +:+ name +:+ " as " +:+ iname) +:+ nl)
      else
        Some (guarded ("import " +:+ name) +:+ nl)
  | ImpName imp =>
      if bool_decide (imp ∈ ignore_list) then None
      else if startswith "import" imp || startswith "from" imp then
        Some (guarded (rstrip imp))
      else if startswith "@" imp then None
      else Some (guarded ("import " +:+ imp) +:+ nl)
  end.

Definition filtered_imports (imports : list import_entry) : list string :=
  omap render_import imports.

(** Lines 180-184 *)
Definition normalise_imports (imports : imports_arg)
  : bool * list import_entry :=
  match imports with
  | ArgNone | ArgStr "" | ArgList [] | ArgTuple [] => (false, [])
  | ArgStr s => (false, [ImpName s])
  | ArgList l => (false, l)
  | ArgTuple l => (true, l)
  end.

(** Lines 186-190: [imports.append] exists on lists only. *)
Definition append_globals (rt : runtime) (imports : bool * list import_entry)
  : result (bool * list import_entry) :=
  let found :=
    filter (fun p => fst p = "__main__" ∨ startswith "__" (fst p) = false)
           (module_globals rt) in
  match found, fst imports with
  | [], _ => Ok imports
  | _, true => Raise (AttributeError "'tuple' object has no attribute 'append'")
  | _, false =>
      Ok (false, snd imports ++ map (fun p => ImpPair (fst p) (snd p)) found)
  end.

(** Lines 192-196: [imports += [...]] concatenates a list to a list. *)
Definition append_members (rootmod : pymodule)
    (imports : bool * list import_entry) : result (list import_entry) :=
  match mod_file rootmod with
  | Some _ =>
      if fst imports
      then Raise (TypeError "can only concatenate tuple (not list) to tuple")
      else Ok (snd imports
               ++ map (fun p => ImpPair (fst p) (snd p))
                    (filter (fun p => startswith "__" (fst p) = false)
                            (mod_members rootmod)))
  | None => Ok (snd imports)
  end.

(** Lines 180-196: the hints, then the modules among the globals, then
    the modules among the members of the defining module. The list is
    the caller's own when a list was passed. *)
Definition collect_imports (rt : runtime) (rootmod : pymodule)
    (imports : imports_arg) : result (list import_entry) :=
  match append_globals rt (normalise_imports imports) with
  | Raise e => Raise e
  | Ok imports1 => append_members rootmod imports1
  end.

(** The import list after line 198. *)
Definition sorted_imports (so : set_order) (imports : list import_entry)
  : list import_entry :=
  sorted _sort_imports (py_set_entries so imports).

(** The distinct statements joined at line 256, in the order the set
    yields them. *)
Definition import_chain (so : set_order) (imports : list import_entry)
  : list string :=
  py_set_strings so (filtered_imports (sorted_imports so imports)).

(** *** Function *)

Definition lines (l : list string) : string :=
  foldr (fun x acc => x +:+ nl +:+ acc) "" l.

(** [str.format] renders [None] as the word. *)
Definition fmt_opt (o : option string) : string := default "None" o.

(** The bootstrap preamble with a fallback to the owning package,
    lines 138-162. *)
Definition modstr_with_parent (imppath imppath2 imp1 imp2 bimp1 bimp2 : string)
  : string :=
  lines ["sys.path.append('" +:+ imppath +:+ "')";
         "try:";
         "    try:";
         "        " +:+ imp1;
         "    except SystemError:";
         "        sys.path.append('" +:+ imppath2 +:+ "')";
         "        try:";
         "            " +:+ bimp1;
         "        except ImportError:";
         "            pass";
         "except ImportError:";
         "    pass";
         "try:";
         "    try:";
         "        " +:+ imp2;
         "    except SystemError:";
         "        try:";
         "            " +:+ bimp2;
         "        except ImportError:";
         "            pass";
         "except ImportError:";
         "    pass"].

(** The plain bootstrap preamble, lines 164-174. *)
Definition modstr_plain (imppath imp1 imp2 : string) : string :=
  lines ["sys.path.append('" +:+ imppath +:+ "')";
         "try:";
         "    " +:+ imp1;
         "except ImportError:";
         "    pass";
         "try:";
         "    " +:+ imp2;
         "except ImportError:";
         "    pass"].

(** Lines 101-108: the directory and the base name, without extension,
    of the defining file. *)
Definition module_path (rt : runtime) (rootmod : pymodule)
  : string * option string :=
  match mod_file rootmod with
  | Some file =>
      let '(imppath, impt) := path_split rt file in
      (abspath rt imppath, Some (fst (path_splitext rt impt)))
  | None => (abspath rt ".", None)
  end.

Definition opt_truthy (o : option string) : bool :=
  match o with
  | Some s => truthy s
  | None => false
  end.

(** [function.__module__ = m] on a plain function. From then on
    [inspect.getmodule], which looks the [__module__] up in
    [sys.modules], finds the module loaded under the new name, or
    nothing. *)
Definition set_fn_module (rt : runtime) (m : string) (function : pyfunc)
  : pyfunc :=
  {| fn_name := fn_name function;
     fn_module := m;
     fn_rootmod := sys_modules rt m;
     fn_series := fn_series function;
     fn_cell := fn_cell function |}.

(** Lines 110-112 for a plain function: the function object is shared
    with the caller, so the assignment is seen by the caller. *)
Definition clobber_module (rt : runtime) (impt : option string)
    (function : pyfunc) : pyfunc :=
  match impt with
  | Some m =>
      if truthy m && String.eqb (fn_module function) "__main__"
      then set_fn_module rt m function
      else function
  | None => function
  end.

(** A local variable of a Python function body. *)
Inductive local (A : Type) :=
| Unbound
| Bound (a : A).
Arguments Unbound {A}.
Arguments Bound {A} a.

(** The locals lines 114-134 leave behind. *)
Record submitted_imports := {
  imp1 : string;
  imp2 : option string;
  bimp1 : local (option string);
  bimp2 : local string;
  imppath2 : local string
}.

(** Lines 114-134. *)
Definition import_submitted (rt : runtime) (parent imppath : string)
    (impt : option string) (function : pyfunc) : submitted_imports :=
  let name := fn_name function in
  if opt_truthy impt then
    let m := default "" impt in
    if negb (String.eqb m parent) then
      {| imp1 := "from " +:+ m +:+ " import " +:+ name;
         imp2 := Some ("from " +:+ m +:+ " import *");
         imppath2 :=
           Bound (abspath rt (foldl path_join imppath
                    (replicate (count_char "."%char parent) "..")));
         bimp1 := Bound (Some ("from " +:+ parent +:+ " import " +:+ name));
         bimp2 := Bound ("from " +:+ parent +:+ " import *") |}
    else
      {| imp1 := "from " +:+ m +:+ " import " +:+ name;
         imp2 := Some ("from " +:+ m +:+ " import *");
         imppath2 := Unbound;
         bimp1 := Bound None;
         bimp2 := Unbound |}
  else if negb (String.eqb parent name) && negb (String.eqb parent "__main__")
  then
    {| imp1 := "from " +:+ parent +:+ " import " +:+ name;
       imp2 := Some ("from " +:+ parent +:+ " import *");
       imppath2 := Unbound; bimp1 := Unbound; bimp2 := Unbound |}
  else
    {| imp1 := "import " +:+ name;
       imp2 := None;
       imppath2 := Unbound; bimp1 := Unbound; bimp2 := Unbound |}.

(** Lines 136-175: [if bimp1:] reads the local; reading a local that no
    branch assigned raises. *)
Definition module_import_string (rt : runtime) (parent imppath : string)
    (impt : option string) (function : pyfunc) : result string :=
  let v := import_submitted rt parent imppath impt function in
  match bimp1 v with
  | Unbound => Raise (UnboundLocalError "bimp1")
  | Bound (Some b1) =>
      match imppath2 v, bimp2 v with
      | Bound p2, Bound b2 =>
          Ok (indent rt (modstr_with_parent imppath p2 (imp1 v)
                           (fmt_opt (imp2 v)) b1 b2) "    ")
      | Unbound, _ => Raise (UnboundLocalError "imppath2")
      | _, Unbound => Raise (UnboundLocalError "bimp2")
      end
  | Bound None =>
      Ok (indent rt (modstr_plain imppath (imp1 v) (fmt_opt (imp2 v))) "    ")
  end.

(** [Function.__init__], lines 78-271, called with a plain function: the
    function object after the call and the new instance, or the
    exception. *)
Definition Function__init__ (rt : runtime) (so : set_order)
    (file_name : string) (function : pyfunc) (args : option (list pyval))
    (imports : imports_arg) (pickle_file outfile : option string)
  : pyfunc * result pyobject :=
  match fn_rootmod function with
  | None =>
      (function,
       Raise (AttributeError "'NoneType' object has no attribute '__name__'"))
  | Some rootmod =>
      let parent := mod_name rootmod in
      let '(imppath, impt) := module_path rt rootmod in
      let function' := clobber_module rt impt function in
      (function',
       match module_import_string rt parent imppath impt function' with
       | Raise e => Raise e
       | Ok modstr =>
         match collect_imports rt rootmod imports with
         | Raise e => Raise e
         | Ok imports2 =>
               let impts :=
                 indent rt (join nl (import_chain so imports2)) "    " in
               let pickle_file :=
                 if opt_truthy pickle_file then default "" pickle_file
                 else file_name +:+ ".pickle.in" in
               let outfile :=
                 if opt_truthy outfile then default "" outfile
                 else file_name +:+ ".pickle.out" in
               let script :=
                 "#!" +:+ executable rt +:+ nl +:+
                 FUNC_RUNNER rt file_name imppath modstr impts pickle_file
                   outfile in
               let d : gmap string attr :=
                 <["outfile" := AStr outfile]>
                 (<["pickle_file" := AStr pickle_file]>
                 (<["args" := match args with
                              | Some l => AArgs l
                              | None => ANone
                              end]>
                 (<["parent" := AStr parent]>
                 (<["function" := AFunc function']> ∅)))) in
               Ok (Script__init__ rt ClsFunction d file_name script)
         end
       end)
  end.

(** What a caller may pass as [function]. A plain function has a
    [__name__] and lets [__module__] be assigned. A bound method reads
    [__name__] and [__module__] from the function it wraps and refuses
    every assignment. Another callable, a [functools.partial] or an
    instance of a class with [__call__], has a [__module__], which can
    be assigned, and no [__name__]; it is given by the name of its type,
    its [__module__] and the module [inspect.getmodule] finds for it. *)
Inductive callable :=
| PlainFunction (f : pyfunc)
| BoundMethod (f : pyfunc)
| NamelessCallable (type_name module : string) (rootmod : option pymodule).

(** [function.__module__] *)
Definition callable_module (c : callable) : string :=
  match c with
  | PlainFunction f | BoundMethod f => fn_module f
  | NamelessCallable _ m _ => m
  end.

(** [inspect.getmodule(function)] *)
Definition callable_rootmod (c : callable) : option pymodule :=
  match c with
  | PlainFunction f | BoundMethod f => fn_rootmod f
  | NamelessCallable _ _ r => r
  end.

(** [Function.__init__], lines 78-271, called with any callable: the
    callable after the call and the new instance, or the exception.
    - A bound method of the main script makes the assignment of line 112
      raise. Any other bound method goes through as the function it
      wraps does, no assignment being attempted; [AFunc] of that function
      stands for the method in the instance.
    - A callable without [__name__] gets past line 112, where its
      [__module__] is assigned like that of a function, and raises at
      the first read of [__name__], on line 116 or on line 128. *)
Definition Function__init__callable (rt : runtime) (so : set_order)
    (file_name : string) (c : callable) (args : option (list pyval))
    (imports : imports_arg) (pickle_file outfile : option string)
  : callable * result pyobject :=
  match c with
  | PlainFunction f =>
      let '(f', r) :=
        Function__init__ rt so file_name f args imports pickle_file outfile in
      (PlainFunction f', r)
  | BoundMethod f =>
      match fn_rootmod f with
      | None =>
          (c, Raise (AttributeError
                       "'NoneType' object has no attribute '__name__'"))
      | Some rootmod =>
          let '(imppath, impt) := module_path rt rootmod in
          if opt_truthy impt && String.eqb (fn_module f) "__main__"
          then (c, Raise (AttributeError
                            "'method' object has no attribute '__module__'"))
          else (c, snd (Function__init__ rt so file_name f args imports
                          pickle_file outfile))
      end
  | NamelessCallable type_name m r =>
      match r with
      | None =>
          (c, Raise (AttributeError
                       "'NoneType' object has no attribute '__name__'"))
      | Some rootmod =>
          let '(imppath, impt) := module_path rt rootmod in
          (if opt_truthy impt && String.eqb m "__main__"
           then NamelessCallable type_name (default "" impt)
                  (sys_modules rt (default "" impt))
           else c,
           Raise (AttributeError
                    ("'" +:+ type_name
                     +:+ "' object has no attribute '__name__'")))
      end
  end.

(** *** Observing objects and import lists *)

(** The object a constructor call returned. *)
Definition the_object (r : result pyobject) : pyobject :=
  match r with
  | Ok o => o
  | Raise _ => {| ob_class := ClsScript; ob_dict := ∅ |}
  end.

(** The sort key orders by the module's own name; this is the name a
    pair binds. *)
Definition alias_of (imp : import_entry) : string :=
  match imp with
  | ImpPair iname _ => iname
  | ImpName s => s
  end.

(** What the filter drops by name: a bare blacklisted name, and a pair
    that binds a blacklisted name. *)
Definition blacklisted (imp : import_entry) : bool :=
  bool_decide (alias_of imp ∈ ignore_list).

Definition key_le (a b : import_entry) : Prop :=
  String.leb (_sort_imports a) (_sort_imports b) = true.

Definition alias_le (a b : import_entry) : Prop :=
  String.leb (alias_of a) (alias_of b) = true.

(** An entry carries the marker of an internal name when its name, or
    for a pair its alias or its module name, starts with [@]. *)
Definition private_marker (imp : import_entry) : bool :=
  match imp with
  | ImpName s => startswith "@" s
  | ImpPair iname name => startswith "@" name || startswith "@" iname
  end.

End SubmissionScripts.

(** ** Sample inputs *)

Module Samples.
Import Pandas Helpers.

Definition numpy_module : pymodule :=
  {| mod_name := "numpy";
     mod_file := Some "/usr/lib/python3/site-packages/numpy/__init__.py";
     mod_members := [] |}.

Definition sumQc (l : list Qc) : Qc := foldr Qcplus 0%Qc l.

Definition Qc_of_nat (n : nat) : Qc := Q2Qc (inject_Z (Z.of_nat n)).

(** The non-NaN values of a column. *)
Definition present (l : list cell) : list Qc := omap id l.

(** The mean of the numbers of a column, NaN when there is none, without
    rounding. numpy computes a mean in binary floating point, so this is
    numpy's mean only where the sum and the quotient are binary
    fractions that a double holds exactly: the columns of the frames
    below (small integers, with means such as 3/2 and 1) are of this
    kind, and [exact_mean] is evaluated on them only. The properties
    stated for every dataset hold for any reducer and use nothing of
    this function. *)
Definition exact_mean (l : list cell) : cell :=
  match present l with
  | [] => None
  | v :: vs => Some (sumQc (v :: vs) / Qc_of_nat (length (v :: vs)))%Qc
  end.

(** [numpy.mean] as a user function, on the sample frames: on a column
    it is the column mean, on a single value it is the value. *)
Definition mean_func : pyfunc :=
  {| fn_name := "mean";
     fn_module := "numpy";
     fn_rootmod := Some numpy_module;
     fn_series := fun _ _ => Reducer exact_mean;
     fn_cell := fun _ _ c => c |}.

Definition num (z : Z) : cell := Some (Q2Qc (inject_Z z)).

(** One column [x] holding 0, 0, 3. *)
Definition three_rows : DataFrame :=
  {| df_columns := [LStr "x"];
     df_rows := [(LInt 0, [num 0]); (LInt 1, [num 0]); (LInt 2, [num 3])] |}.

(** Two columns, four rows. *)
Definition four_rows : DataFrame :=
  {| df_columns := [LStr "x"; LStr "y"];
     df_rows := [(LInt 0, [num 1; num 10]); (LInt 1, [num 2; num 20]);
                 (LInt 2, [num 3; num 30]); (LInt 3, [num 6; num 40])] |}.

(** A backend on which every job finishes; every keyword goes to pandas. *)
Definition all_done : backend :=
  {| split_keywords := fun kw => ([], kw);
     outcome := fun _ => JobDone |}.

(** A backend on which the job of the second shard crashed. *)
Definition second_crashes : backend :=
  {| split_keywords := fun kw => ([], kw);
     outcome := fun i => if Nat.eqb i 1 then JobFailed IOError else JobDone |}.

(** A backend on which the job of the first shard raised a ValueError;
    the caller's keywords are all taken as backend options. *)
Definition first_raises : backend :=
  {| split_keywords := fun kw => (kw, []);
     outcome := fun i =>
       if Nat.eqb i 0 then JobFailed (ValueError "bad shard") else JobDone |}.

End Samples.

Module ScriptSamples.
Import PyString SubmissionScripts.

(** Two iteration orders a set may show: first-seen order and its
    reverse. *)
Definition insertion_order : set_order :=
  {| iter_entries := fun l => l; iter_strings := fun l => l |}.

Definition reverse_order : set_order :=
  {| iter_entries := @rev import_entry; iter_strings := @rev string |}.

(** A script [analysis.py] run as the main program. *)
Definition main_module : pymodule :=
  {| mod_name := "__main__";
     mod_file := Some "/work/analysis.py";
     mod_members := [("np", "numpy")] |}.

(** A POSIX-like runtime, simplified: paths split at the last slash, the
    extension starts at the last dot, relative paths resolve in [/work];
    the script is loaded as [__main__] and under no other name. *)
Definition posix_runtime : runtime :=
  {| abspath := fun p => if startswith "/" p then p else "/work/" +:+ p;
     path_split := fun p =>
       let parts := split_on "/"%char p in
       (join "/" (removelast parts), List.last parts "");
     path_splitext := fun p =>
       let parts := split_on "."%char p in
       if Nat.ltb 1 (length parts)
       then (join "." (removelast parts), "." +:+ List.last parts "")
       else (p, "");
     executable := "/usr/bin/python3";
     FUNC_RUNNER := fun name path modimpstr imports pickle_file out_file =>
       join nl [name; path; modimpstr; imports; pickle_file; out_file];
     indent := fun text pre =>
       join nl (map (fun line => pre +:+ line) (split_on "010"%char text));
     module_globals :=
       [("_os", "os"); ("_sys", "sys"); ("_inspect", "inspect");
        ("_pickle", "dill"); ("_run", "fyrd.run");
        ("_logme", "fyrd.logme")];
     dumps := fun f _ => Some ("pickled " +:+ fn_name f);
     sys_modules := fun name =>
       if String.eqb name "__main__" then Some main_module else None |}.

(** A function [work] defined in the script. *)
Definition work_func : pyfunc :=
  {| fn_name := "work";
     fn_module := "__main__";
     fn_rootmod := Some main_module;
     fn_series := fun _ _ => Pandas.Reducer Samples.exact_mean;
     fn_cell := fun _ _ c => c |}.

(** A method of a class defined in the script, bound to an instance;
    [work] stands for the function it wraps. *)
Definition work_method : callable := BoundMethod work_func.

(** A built-in: its module has no file; what it computes plays no role
    where it is used. *)
Definition builtins_module : pymodule :=
  {| mod_name := "builtins"; mod_file := None; mod_members := [] |}.

Definition builtin_func : pyfunc :=
  {| fn_name := "len";
     fn_module := "builtins";
     fn_rootmod := Some builtins_module;
     fn_series := fun _ _ => Pandas.Reducer Samples.exact_mean;
     fn_cell := fun _ _ c => c |}.

(** A function built at run time, for which [inspect.getmodule] finds
    nothing. *)
Definition orphan_func : pyfunc :=
  {| fn_name := "f";
     fn_module := "dynamic";
     fn_rootmod := None;
     fn_series := fun _ _ => Pandas.Reducer Samples.exact_mean;
     fn_cell := fun _ _ c => c |}.

(** A Function for [work], as [Function.__init__] builds it. *)
Definition sample_function_object : result pyobject :=
  snd (Function__init__ posix_runtime
         insertion_order "job" work_func None
         ArgNone None None).

End ScriptSamples.

(** * Properties *)

(** ** Partitioning (numpy.array_split as called by parapply) *)

Section Partition.
Import Pandas.
Context {A : Type}.
Implicit Types (l : list A) (ss : list nat).

Lemma slices_reshape ss : forall a l,
  map (fun i => slice (nth i (a :: cumsum_from a ss) 0)
                      (nth (S i) (a :: cumsum_from a ss) 0) l)
      (seq 0 (length ss))
  = reshape ss (drop a l).
Proof.
  induction ss as [|x ss IH]; intros a l; [done|].
  cbn [length seq map reshape cumsum_from].
  f_equal.
  - unfold slice. cbn [nth]. f_equal. lia.
  - rewrite <- seq_shift, map_map.
    rewrite drop_drop, <- (IH (a + x) l).
    apply map_ext. intros i. reflexivity.
Qed.

Lemma length_section_sizes (n k : nat) :
  0 < k -> length (section_sizes n k) = k.
Proof.
  intros Hk. unfold section_sizes.
  rewrite length_app, !length_replicate.
  pose proof (Nat.mod_upper_bound n k). lia.
Qed.

Lemma sum_section_sizes (n k : nat) :
  0 < k -> sum_list (section_sizes n k) = n.
Proof.
  intros Hk. unfold section_sizes.
  rewrite sum_list_with_app, !sum_list_replicate.
  pose proof (Nat.mod_upper_bound n k).
  pose proof (Nat.div_mod_eq n k). nia.
Qed.

Lemma array_split_reshape l (K : Z) :
  (0 < K)%Z ->
  array_split l K = Ok (reshape (section_sizes (length l) (Z.to_nat K)) l).
Proof.
  intros HK. unfold array_split.
  destruct (Z.leb_spec K 0) as [?|_]; [lia|].
  f_equal. unfold cumsum. cbn [cumsum_from]. rewrite Nat.add_0_r.
  pose proof (slices_reshape (section_sizes (length l) (Z.to_nat K)) 0 l) as H.
  rewrite length_section_sizes in H by lia.
  rewrite H. by rewrite drop_0.
Qed.

Lemma sum_lengths_join (ls : list (list A)) :
  sum_list (map length ls) = length (mjoin ls).
Proof.
  induction ls as [|x ls IH]; [done|].
  change (mjoin (x :: ls)) with (x ++ mjoin ls).
  rewrite length_app, <- IH. reflexivity.
Qed.

End Partition.

(** ** The fan-out of parapply *)

Section FanOut.
Import Pandas Helpers.

Lemma gets_app t1 t2 : gets (t1 ++ t2) = gets t1 ++ gets t2.
Proof. unfold gets. apply omap_app. Qed.

Lemma gets_submit js : gets (map EvSubmit js) = [].
Proof. induction js; [done|]. exact IHjs. Qed.

Lemma gets_get l : gets (map EvGet l) = l.
Proof. induction l as [|x l IH]; [done|]. cbn. f_equal. exact IH. Qed.

Lemma submit_jobs_spec name jobs applymap imports kw dfs : forall count,
  submit_jobs name jobs applymap imports kw count dfs
  = (map EvSubmit (jobs_for name jobs applymap imports kw count dfs),
     Ok (jobs_for name jobs applymap imports kw count dfs)).
Proof.
  induction dfs as [|d dfs IH]; intros count; [done|].
  cbn [submit_jobs]. rewrite IH. unfold jobs_for. cbn.
  rewrite !Nat.add_0_r.
  assert (E : imap
    ((fun n d0 =>
       {| job_index := count + n - 1;
          job_name := name +:+ "_" +:+ pretty (count + n) +:+ "_of_"
                      +:+ pystr jobs;
          job_applymap := applymap; job_shard := d0;
          job_imports := imports; job_kwds := kw |}) ∘ S) dfs
    = imap (fun n d0 =>
       {| job_index := S count + n - 1;
          job_name := name +:+ "_" +:+ pretty (S count + n) +:+ "_of_"
                      +:+ pystr jobs;
          job_applymap := applymap; job_shard := d0;
          job_imports := imports; job_kwds := kw |}) dfs).
  { apply imap_ext. intros n d0 _. cbn.
    replace (count + S n) with (S (count + n)) by lia. reflexivity. }
  rewrite E, app_nil_r. reflexivity.
Qed.

Lemma jobs_for_indices name jobs applymap imports kw dfs : forall count,
  0 < count ->
  map job_index (jobs_for name jobs applymap imports kw count dfs)
  = seq (count - 1) (length dfs).
Proof.
  unfold jobs_for.
  induction dfs as [|d dfs IH]; intros count Hc; [done|].
  cbn. f_equal; [lia|].
  replace (S (count - 1)) with (S count - 1) by lia.
  rewrite <- (IH (S count)) by lia.
  f_equal. apply imap_ext. intros n d0 _. cbn. f_equal; try lia.
  replace (count + S n) with (S (count + n)) by lia. reflexivity.
Qed.

Lemma jobs_for_shards name jobs applymap imports kw dfs count :
  map job_shard (jobs_for name jobs applymap imports kw count dfs) = dfs.
Proof.
  unfold jobs_for. revert count.
  induction dfs as [|d dfs IH]; intros count; [done|].
  cbn. f_equal. rewrite <- (IH (S count)) at 2.
  f_equal. apply imap_ext. intros n d0 _. cbn. f_equal; try lia.
  replace (count + S n) with (S (count + n)) by lia. reflexivity.
Qed.

Lemma jobs_for_applymap name jobs applymap imports kw dfs count :
  Forall (fun j => job_applymap j = applymap)
         (jobs_for name jobs applymap imports kw count dfs).
Proof.
  unfold jobs_for. apply Forall_forall. intros j Hj.
  apply list_elem_of_lookup in Hj. destruct Hj as [i Hi].
  rewrite list_lookup_imap in Hi.
  destruct (dfs !! i); [|done]. cbn in Hi. by injection Hi as <-.
Qed.

(** On a frame both dispatchers return. *)
Lemma sub_func_frame applymap d func args kw :
  exists v, sub_func applymap (PFrame d) func args kw = Ok v.
Proof. destruct applymap; cbn; eauto. Qed.

(** Collecting from jobs that all finished awaits each of them, in list
    order, and returns what each computed. *)
Lemma collect_all_done B func args kw outs : forall acc,
  Forall (fun j => outcome B (job_index j) = JobDone) outs ->
  collect B func args kw outs acc
  = (map EvGet (map job_index outs),
     Ok (acc ++ map (remote_result func args kw) outs)).
Proof.
  induction outs as [|j outs IH]; intros acc Hdone.
  - cbn. by rewrite app_nil_r.
  - inversion Hdone as [|? ? Hj Hrest]; subst.
    cbn [collect]. unfold Job_get. rewrite Hj.
    assert (Hv : sub_func (job_applymap j) (PFrame (job_shard j)) func args kw
                 = Ok (remote_result func args kw j)).
    { unfold remote_result. by destruct (job_applymap j). }
    rewrite Hv. cbn. rewrite (IH _ Hrest). cbn.
    by rewrite <- app_assoc.
Qed.

(** The first job that failed with an IOError ends the collection: the
    failure is logged as critical and raised, and no later job is
    awaited. *)
Lemma collect_fail_fast B func args kw pre j post : forall acc,
  Forall (fun j' => outcome B (job_index j') = JobDone) pre ->
  outcome B (job_index j) = JobFailed IOError ->
  collect B func args kw (pre ++ j :: post) acc
  = (map EvGet (map job_index (pre ++ [j]))
     ++ [EvLog get_failed_msg "critical"], Raise IOError).
Proof.
  induction pre as [|p pre IH]; intros acc Hdone Hfail.
  - cbn [app collect]. unfold Job_get. rewrite Hfail. reflexivity.
  - inversion Hdone as [|? ? Hp Hrest]; subst.
    destruct (sub_func_frame (job_applymap p) (job_shard p) func args kw)
      as [v Hv].
    cbn [app collect]. unfold Job_get. rewrite Hp, Hv. cbn.
    rewrite (IH (acc ++ [v]) Hrest Hfail). reflexivity.
Qed.

(** Whatever the backend does, the jobs awaited are an initial segment of
    the job list, in list order. *)
Lemma collect_gets_prefix B func args kw outs : forall acc,
  exists m, gets (fst (collect B func args kw outs acc))
            = take m (map job_index outs).
Proof.
  induction outs as [|j outs IH]; intros acc.
  - exists 0. reflexivity.
  - cbn [collect]. unfold Job_get.
    destruct (outcome B (job_index j)) as [|e].
    + destruct (sub_func_frame (job_applymap j) (job_shard j) func args kw)
        as [v Hv].
      rewrite Hv. cbn.
      destruct (IH (acc ++ [v])) as [m Hm].
      destruct (collect B func args kw outs (acc ++ [v])) as [t r].
      exists (S m). cbn in *. by rewrite Hm.
    + exists 1. destruct e; cbn; by rewrite take_0.
Qed.

(** [parapply] once the argument check, the split and the module lookup
    went through: every job is submitted, then the collection starts. *)
Lemma parapply_running B jobs df func args applymap axis merge_apply name
    imports kw shards rootmod :
  isinstance_int jobs = true ->
  array_split_df df (int_value jobs) = Ok shards ->
  fn_rootmod func = Some rootmod ->
  parapply B jobs df func args applymap axis merge_apply name imports kw
  = let fk := set_default "clean_outputs" (PyBool true)
                (set_default "clean_files" (PyBool true)
                   (fst (split_keywords B kw))) in
    let pk := snd (split_keywords B kw) in
    let js := jobs_for name jobs applymap (job_import_list imports) fk 1
                shards in
    let '(t, r) :=
      (let* results := collect B func args pk js [] in
       let* out := merge results axis in
       if merge_apply then liftM (sub_func applymap out func args pk)
       else retM out) in
    (EvSplit (int_value jobs) :: map EvSubmit js ++ t, r).
Proof.
  intros Hint Hsplit Hmod. unfold parapply.
  destruct (split_keywords B kw) as [fk pk]. rewrite Hint. cbn [negb].
  rewrite Hsplit. unfold bindM, tell, liftM, retM.
  rewrite Hmod, submit_jobs_spec. cbn [fst snd].
  destruct (collect _ _ _ _ _ _) as [t [results|e]]; [|reflexivity].
  destruct (merge results axis) as [t2 [out|e]]; [|reflexivity].
  destruct merge_apply; [destruct (sub_func _ _ _ _ _)|]; reflexivity.
Qed.

Lemma array_split_df_ok (df : DataFrame) (K : Z) :
  (0 < K)%Z ->
  array_split_df df K
  = Ok (map (mkDF (df_columns df))
          (reshape (section_sizes (nrows df) (Z.to_nat K)) (df_rows df))).
Proof.
  intros HK. unfold array_split_df. by rewrite array_split_reshape.
Qed.

Lemma array_split_df_length (df : DataFrame) (K : Z) shards :
  (0 < K)%Z -> array_split_df df K = Ok shards ->
  length shards = Z.to_nat K.
Proof.
  intros HK. rewrite array_split_df_ok by done. intros [= <-].
  rewrite length_map, length_reshape, length_section_sizes; lia.
Qed.

Lemma all_frames_PFrame (dfs : list DataFrame) :
  all_frames (map PFrame dfs) = Some dfs.
Proof.
  unfold all_frames. induction dfs as [|d dfs IH]; [done|].
  cbn. cbn in IH. by rewrite IH.
Qed.

Lemma same_labels_replicate (l : list label) n :
  same_labels (replicate n l) = true.
Proof.
  destruct n as [|n]; [done|]. cbn.
  induction n as [|n IH]; [done|]. cbn.
  rewrite bool_decide_true by done. exact IH.
Qed.

(** C2. For every positive [K] and every dataset [D], the partitioning
    step of parapply, numpy's array_split into [K] sections, yields
    exactly [K] shards whose row counts sum to the row count of [D], and
    concatenating the shards along axis 0 in shard order gives [D]
    back. *)
Theorem array_split_concat_roundtrip (D : DataFrame) (K : Z) :
  (0 < K)%Z ->
  exists shards,
    array_split_df D K = Ok shards
    /\ length shards = Z.to_nat K
    /\ sum_list (map nrows shards) = nrows D
    /\ concat (map PFrame shards) 0 = Ok (PFrame D).
Proof.
  intros HK.
  set (parts := reshape (section_sizes (nrows D) (Z.to_nat K)) (df_rows D)).
  assert (Hjoin : mjoin parts = df_rows D).
  { apply join_reshape, sum_section_sizes. lia. }
  assert (Hlen : length parts = Z.to_nat K).
  { unfold parts. rewrite length_reshape, length_section_sizes; lia. }
  exists (map (mkDF (df_columns D)) parts). repeat split.
  - by apply array_split_df_ok.
  - by rewrite length_map.
  - unfold nrows. rewrite map_map. cbn [df_rows].
    rewrite sum_lengths_join. by rewrite Hjoin.
  - destruct parts as [|p parts'] eqn:Hparts; [cbn in Hlen; lia|].
    rewrite <- Hparts in *. unfold concat.
    replace (all_series (map PFrame (map (mkDF (df_columns D)) parts)))
      with (@None (list Series)) by (by rewrite Hparts).
    rewrite all_frames_PFrame.
    replace (map PFrame (map (mkDF (df_columns D)) parts))
      with (PFrame (mkDF (df_columns D) p)
            :: map PFrame (map (mkDF (df_columns D)) parts'))
      by (by rewrite Hparts).
    cbn [Z.eqb]. unfold concat_frames_rows.
    rewrite !map_map. cbn [df_columns df_rows].
    replace (map (fun _ : list (label * list cell) => df_columns D) parts)
      with (replicate (length parts) (df_columns D))
      by (clear; induction parts; cbn; congruence).
    rewrite same_labels_replicate.
    rewrite Hparts at 1. cbn [length replicate head default].
    rewrite map_id, Hjoin. by destruct D.
Qed.

Lemma array_split_concat_roundtrip_witness :
  exists shards,
    array_split_df Samples.four_rows 3 = Ok shards
    /\ length shards = Z.to_nat 3
    /\ sum_list (map nrows shards) = nrows Samples.four_rows
    /\ concat (map PFrame shards) 0 = Ok (PFrame Samples.four_rows).
Proof. apply (array_split_concat_roundtrip Samples.four_rows 3). lia. Defined.

(** C1, as amended. For every call to parapply whose [jobs] argument is
    not a positive integer, the call fails with a ValueError before any
    shard of the dataset is produced and before any job is submitted or
    awaited. A [jobs] that is not an integer is refused by the argument
    check (lines 122-123), before the partitioning call is made. An
    integer that is zero or negative passes that check and is refused by
    the partitioning call itself (line 132, numpy's array_split), which
    raises without returning a shard. *)
Theorem parapply_jobs_argument B jobs df func args applymap axis
    merge_apply name imports kw :
  isinstance_int jobs = false \/ (int_value jobs <= 0)%Z ->
  let run := parapply B jobs df func args applymap axis merge_apply name
               imports kw in
  (exists msg, snd run = Raise (ValueError msg))
  /\ submits (fst run) = []
  /\ gets (fst run) = []
  /\ is_Ok (array_split_df df (int_value jobs)) = false
  /\ (isinstance_int jobs = false ->
      jobs_check jobs = Raise (ValueError "Jobs argument must be an integer.")
      /\ run = ([], Raise (ValueError "Jobs argument must be an integer.")))
  /\ (isinstance_int jobs = true ->
      jobs_check jobs = Ok tt
      /\ array_split_df df (int_value jobs)
         = Raise (ValueError "number sections must be larger than 0.")
      /\ run = ([EvSplit (int_value jobs)],
                Raise (ValueError "number sections must be larger than 0."))).
Proof.
  intros Hbad run.
  assert (Hle : (int_value jobs <= 0)%Z).
  { destruct Hbad as [Hint|Hle]; [|exact Hle].
    destruct jobs as [| |z|q|s]; cbn in Hint; try discriminate Hint;
      cbn; lia. }
  assert (Hsplit : array_split_df df (int_value jobs)
                   = Raise (ValueError "number sections must be larger than 0.")).
  { unfold array_split_df, array_split.
    destruct (Z.leb_spec (int_value jobs) 0) as [_|?]; [reflexivity|lia]. }
  assert (Hrun : run = if isinstance_int jobs
                       then ([EvSplit (int_value jobs)],
                             Raise (ValueError
                                      "number sections must be larger than 0."))
                       else ([], Raise (ValueError
                                          "Jobs argument must be an integer."))).
  { unfold run, parapply. destruct (split_keywords B kw) as [fk pk].
    destruct (isinstance_int jobs); cbn [negb]; [|reflexivity].
    by rewrite Hsplit. }
  split; [|split; [|split; [|split; [|split]]]].
  - rewrite Hrun. destruct (isinstance_int jobs); cbn [snd]; eauto.
  - rewrite Hrun. by destruct (isinstance_int jobs).
  - rewrite Hrun. by destruct (isinstance_int jobs).
  - by rewrite Hsplit.
  - intros Hint. unfold jobs_check. rewrite Hrun, Hint. by split.
  - intros Hint. unfold jobs_check. rewrite Hrun, Hint. by repeat split.
Qed.

Lemma parapply_jobs_argument_witness :
  (isinstance_int (PyInt (-2)) = false \/ (int_value (PyInt (-2)) <= 0)%Z)
  /\ submits (fst (parapply Samples.all_done (PyInt (-2)) Samples.three_rows
                     Samples.mean_func [] false 0 false "job" ImpNone []))
     = []
  /\ (isinstance_int (PyStr "4") = false \/ (int_value (PyStr "4") <= 0)%Z)
  /\ submits (fst (parapply Samples.all_done (PyStr "4") Samples.three_rows
                     Samples.mean_func [] false 0 false "job" ImpNone []))
     = [].
Proof.
  assert (H1 : isinstance_int (PyInt (-2)) = false
               \/ (int_value (PyInt (-2)) <= 0)%Z) by (right; cbn; lia).
  assert (H2 : isinstance_int (PyStr "4") = false
               \/ (int_value (PyStr "4") <= 0)%Z) by (left; reflexivity).
  split; [exact H1|]. split; [|split; [exact H2|]].
  - exact (proj1 (proj2 (parapply_jobs_argument Samples.all_done (PyInt (-2))
                           Samples.three_rows Samples.mean_func [] false 0
                           false "job" ImpNone [] H1))).
  - exact (proj1 (proj2 (parapply_jobs_argument Samples.all_done (PyStr "4")
                           Samples.three_rows Samples.mean_func [] false 0
                           false "job" ImpNone [] H2))).
Defined.

(** C1 as stated fails in its last clause: [jobs = 0] is not refused by
    the argument check. The check lets 0 through, and the ValueError the
    caller sees is the one numpy's array_split raises, with its message,
    not the message of the check. *)
Lemma parapply_zero_jobs_passes_check :
  jobs_check (PyInt 0) = Ok tt
  /\ array_split_df Samples.three_rows 0
     = Raise (ValueError "number sections must be larger than 0.")
  /\ snd (parapply Samples.all_done (PyInt 0) Samples.three_rows
            Samples.mean_func [] false 0 false "job" ImpNone [])
     = Raise (ValueError "number sections must be larger than 0.")
  /\ snd (parapply Samples.all_done (PyInt 0) Samples.three_rows
            Samples.mean_func [] false 0 false "job" ImpNone [])
     <> Raise (ValueError "Jobs argument must be an integer.").
Proof.
  split; [reflexivity|]. split; [reflexivity|]. split; [reflexivity|].
  vm_compute. intros H. discriminate H.
Qed.

(** C4. parapply awaits the shard results strictly in shard order; when
    collecting the result of a shard fails with IOError, the failure is
    logged at critical level and raised at once: no later shard is
    awaited, nothing is concatenated, and the caller gets the exception
    instead of a merged result, the results collected so far being
    dropped. *)
Theorem parapply_collects_in_order B jobs df func args applymap axis
    merge_apply name imports kw :
  (exists m,
     gets (fst (parapply B jobs df func args applymap axis merge_apply name
                  imports kw)) = seq 0 m)
  /\ (forall i : nat,
       isinstance_int jobs = true ->
       (Z.of_nat i < int_value jobs)%Z ->
       is_Some (fn_rootmod func) ->
       (forall j, j < i -> outcome B j = JobDone) ->
       outcome B i = JobFailed IOError ->
       exists js,
         length js = Z.to_nat (int_value jobs)
         /\ parapply B jobs df func args applymap axis merge_apply name
              imports kw
            = (EvSplit (int_value jobs) :: map EvSubmit js
               ++ map EvGet (seq 0 (S i))
               ++ [EvLog get_failed_msg "critical"],
               Raise IOError)).
Proof.
  split.
  - destruct (isinstance_int jobs) eqn:Hint.
    2:{ exists 0. unfold parapply.
        destruct (split_keywords B kw). by rewrite Hint. }
    destruct (array_split_df df (int_value jobs)) as [shards|e] eqn:Hsplit.
    2:{ exists 0. unfold parapply.
        destruct (split_keywords B kw). by rewrite Hint, Hsplit. }
    destruct (fn_rootmod func) as [rootmod|] eqn:Hmod.
    2:{ exists 0. unfold parapply.
        destruct (split_keywords B kw). by rewrite Hint, Hsplit, Hmod. }
    rewrite (parapply_running _ _ _ _ _ _ _ _ _ _ _ _ _ Hint Hsplit Hmod).
    cbv zeta.
    match goal with
    | |- context [collect ?B ?f ?a ?pk ?js ?acc] =>
        destruct (collect_gets_prefix B f a pk js acc) as [m Hm];
        rewrite jobs_for_indices in Hm by lia;
        destruct (collect B f a pk js acc) as [t r]
    end.
    exists (m `min` length shards).
    cbn [fst] in Hm.
    assert (Hrest : forall (k : list pdobj -> M pdobj),
      (forall rs, gets (fst (k rs)) = []) ->
      gets (fst (bindM (t, r) k)) = gets t).
    { intros k Hk. unfold bindM. destruct r as [rs|e]; [|done].
      specialize (Hk rs). destruct (k rs) as [t' r'].
      cbn [fst] in *. by rewrite gets_app, Hk, app_nil_r. }
    match goal with
    | |- context [bindM (t, r) ?k] =>
        specialize (Hrest k); destruct (bindM (t, r) k) as [t2 r2]
    end.
    cbn [fst] in *.
    change (EvSplit ?x :: ?l) with ([EvSplit x] ++ l).
    rewrite !gets_app, gets_submit, Hrest, Hm; [by rewrite take_seq|].
    intros rs. unfold merge, bindM, tell, try_except, liftM.
    destruct (concat rs axis) as [out|[]]; cbn;
      destruct merge_apply; cbn; try done;
      by destruct (sub_func _ _ _ _ _).
  - intros i Hint Hi [rootmod Hmod] Hdone Hfail.
    assert (HK : (0 < int_value jobs)%Z) by lia.
    destruct (array_split_df df (int_value jobs)) as [shards|e] eqn:Hsplit.
    2:{ rewrite array_split_df_ok in Hsplit by done. discriminate. }
    pose proof (array_split_df_length _ _ _ HK Hsplit) as Hlen.
    rewrite (parapply_running _ _ _ _ _ _ _ _ _ _ _ _ _ Hint Hsplit Hmod).
    cbv zeta.
    set (js := jobs_for _ _ _ _ _ 1 shards).
    assert (Hidx : map job_index js = seq 0 (length shards)).
    { unfold js. by rewrite jobs_for_indices by lia. }
    assert (Hjs : length js = length shards).
    { by rewrite <- (length_map job_index), Hidx, length_seq. }
    exists js. split; [lia|].
    assert (Hi' : i < length js) by lia.
    destruct (lookup_lt_is_Some_2 js i Hi') as [j Hj].
    rewrite <- (take_drop_middle js i j Hj) at 1.
    assert (Hpre : map job_index (take i js) = seq 0 i).
    { change (map job_index (take i js)) with (job_index <$> take i js).
      rewrite fmap_take. change (job_index <$> js) with (map job_index js).
      rewrite Hidx, take_seq. f_equal. lia. }
    assert (Hji : job_index j = i).
    { assert (H : map job_index js !! i = Some (job_index j)).
      { change (map job_index js) with (job_index <$> js).
        by rewrite list_lookup_fmap, Hj. }
      rewrite Hidx in H. apply lookup_seq in H. lia. }
    rewrite collect_fail_fast.
    + cbv beta iota. do 5 f_equal.
      rewrite map_app, Hpre. cbn [map]. rewrite Hji.
      replace (S i) with (i + 1) by lia. by rewrite seq_app.
    + apply Forall_forall. intros j' Hj'.
      apply Hdone.
      assert (H : job_index j' ∈ map job_index (take i js)).
      { change (map job_index (take i js)) with (job_index <$> take i js).
        by apply list_elem_of_fmap_2. }
      rewrite Hpre in H. apply elem_of_seq in H. lia.
    + by rewrite Hji.
Qed.

Lemma parapply_collects_in_order_witness :
  exists js,
    length js = Z.to_nat 3
    /\ parapply Samples.second_crashes (PyInt 3) Samples.four_rows
         Samples.mean_func [] false 0 false "job" ImpNone []
       = (EvSplit 3 :: map EvSubmit js ++ map EvGet (seq 0 2)
          ++ [EvLog get_failed_msg "critical"],
          Raise IOError).
Proof.
  apply (proj2 (parapply_collects_in_order Samples.second_crashes (PyInt 3)
                  Samples.four_rows Samples.mean_func [] false 0 false
                  "job" ImpNone []) 1).
  - reflexivity.
  - cbn. lia.
  - eexists. reflexivity.
  - intros j Hj. destruct j as [|j]; [reflexivity | lia].
  - reflexivity.
Defined.

End FanOut.

(** ** The summary mode *)

Section Summary.
Import Pandas Helpers.


Lemma all_series_PSeries (ss : list Series) :
  all_series (map PSeries ss) = Some ss.
Proof.
  unfold all_series. induction ss as [|x ss IH]; [done|].
  cbn. cbn in IH. by rewrite IH.
Qed.


Lemma map_jobs_for {X} (h : bool -> DataFrame -> X) name jobs applymap
    imports kw dfs : forall count,
  map (fun j => h (job_applymap j) (job_shard j))
      (jobs_for name jobs applymap imports kw count dfs)
  = map (h applymap) dfs.
Proof.
  unfold jobs_for.
  induction dfs as [|d dfs IH]; intros count; [done|].
  cbn. f_equal. rewrite <- (IH (S count)).
  f_equal. apply imap_ext. intros n d0 _. cbn. f_equal; try lia.
  replace (count + S n) with (S (count + n)) by lia. reflexivity.
Qed.







End Summary.

(** ** Scripts on disk *)

Section Scripts.
Import PyString SubmissionScripts.

Lemma lookup_defined_instance (o : pyobject) name v :
  ob_dict o !! name = Some v -> lookup_defined o name = Some v.
Proof. intros H. unfold lookup_defined. by rewrite H. Qed.

Lemma getattr_instance fs (o : pyobject) name v :
  ob_dict o !! name = Some v -> getattr fs o name = Ok v.
Proof.
  intros H. unfold getattr. by rewrite (lookup_defined_instance o name v H).
Qed.

(** C10. Reading an attribute that neither the instance nor its classes
    define never raises: [exists] yields whether the backing file
    exists, every other name yields None. *)
Theorem Script_getattr_undefined (fs : gmap string string) (o : pyobject)
    (name : string) :
  lookup_defined o name = None ->
  (name <> "exists" -> getattr fs o name = Ok ANone)
  /\ (forall p, name = "exists" -> ob_dict o !! "file_name" = Some (AStr p) ->
       getattr fs o name = Ok (ABool (path_exists fs p))).
Proof.
  intros Hundef. unfold getattr. rewrite Hundef. unfold Script__getattr__.
  split.
  - intros Hne. apply String.eqb_neq in Hne. by rewrite Hne.
  - intros p -> Hfile. rewrite String.eqb_refl.
    by rewrite (lookup_defined_instance o "file_name" (AStr p) Hfile).
Qed.

Lemma Script_getattr_undefined_witness :
  getattr ∅ (new_Script ScriptSamples.posix_runtime "run.sh" "echo hi")
    "writen" = Ok ANone
  /\ getattr ∅ (new_Script ScriptSamples.posix_runtime "run.sh" "echo hi")
       "exists" = Ok (ABool (path_exists ∅ "/work/run.sh")).
Proof.
  split.
  - apply (proj1 (Script_getattr_undefined ∅
             (new_Script ScriptSamples.posix_runtime "run.sh" "echo hi")
             "writen" eq_refl)).
    discriminate.
  - apply (proj2 (Script_getattr_undefined ∅
             (new_Script ScriptSamples.posix_runtime "run.sh" "echo hi")
             "exists" eq_refl) "/work/run.sh"); reflexivity.
Defined.

Lemma Script_write_spec overwrite self (fs : gmap string string) p text :
  ob_dict self !! "file_name" = Some (AStr p) ->
  ob_dict self !! "script" = Some (AStr text) ->
  Script_write overwrite self fs
  = if overwrite || negb (path_exists fs p)
    then (set_attr "written" (ABool true) self,
          <[p := text +:+ nl]> fs, Ok (AStr p))
    else (self, fs, Ok ANone).
Proof.
  intros Hp Ht. unfold Script_write.
  rewrite (getattr_instance fs self _ _ Hp), (getattr_instance fs self _ _ Ht).
  reflexivity.
Qed.

(** C7, as amended. For a Script, write with [overwrite] false on an
    existing script path changes no file and no attribute and returns
    None; otherwise it writes the content followed by a newline, sets
    [written] and returns the path. For a Function, write first puts the
    serialised payload into the pickle file, whatever [overwrite] is and
    whether or not the script exists, and then treats the script file
    and [written] as Script's write does. *)
Theorem write_overwrite_guard rt overwrite self (fs : gmap string string)
    p text :
  ob_dict self !! "file_name" = Some (AStr p) ->
  ob_dict self !! "script" = Some (AStr text) ->
  (ob_class self = ClsScript ->
   write rt overwrite self fs
   = if overwrite || negb (path_exists fs p)
     then (set_attr "written" (ABool true) self,
           <[p := text +:+ nl]> fs, Ok (AStr p))
     else (self, fs, Ok ANone))
  /\ (ob_class self = ClsFunction ->
      forall pf f a bytes,
        ob_dict self !! "pickle_file" = Some (AStr pf) ->
        ob_dict self !! "function" = Some (AFunc f) ->
        ob_dict self !! "args" = Some a ->
        dumps rt f (match a with AArgs l => Some l | _ => None end)
        = Some bytes ->
        fst (write rt overwrite self fs)
        = if overwrite || negb (path_exists (<[pf := bytes]> fs) p)
          then (set_attr "written" (ABool true) self,
                <[p := text +:+ nl]> (<[pf := bytes]> fs))
          else (self, <[pf := bytes]> fs)).
Proof.
  intros Hp Ht. split.
  - intros Hcls. unfold write. rewrite Hcls.
    by apply Script_write_spec.
  - intros Hcls pf f a bytes Hpf Hf Ha Hdump.
    unfold write. rewrite Hcls. unfold Function_write.
    rewrite (getattr_instance fs self _ _ Hpf).
    rewrite (getattr_instance _ self _ _ Hf), (getattr_instance _ self _ _ Ha).
    rewrite Hdump. unfold write_file. rewrite insert_insert_eq.
    rewrite (Script_write_spec overwrite self _ p text Hp Ht).
    by destruct (overwrite || negb (path_exists (<[pf:=bytes]> fs) p)).
Qed.

Lemma write_overwrite_guard_witness :
  write ScriptSamples.posix_runtime false
    (new_Script ScriptSamples.posix_runtime "/work/run.sh" "echo hi")
    {["/work/run.sh" := "old"]}
  = (new_Script ScriptSamples.posix_runtime "/work/run.sh" "echo hi",
     {["/work/run.sh" := "old"]}, Ok ANone).
Proof.
  etransitivity.
  - apply (proj1 (write_overwrite_guard ScriptSamples.posix_runtime false
                    (new_Script ScriptSamples.posix_runtime "/work/run.sh"
                       "echo hi")
                    {["/work/run.sh" := "old"]} "/work/run.sh" "echo hi"
                    eq_refl eq_refl)).
    reflexivity.
  - vm_compute. reflexivity.
Defined.

(** C7 as stated fails for a Function: with [overwrite] false and the
    script already on disk, write still creates the pickle file. *)
Lemma Function_write_keeps_writing_payload :
  let F := the_object ScriptSamples.sample_function_object in
  let fs : gmap string string := {["/work/job" := "old script"]} in
  is_Ok ScriptSamples.sample_function_object = true
  /\ ob_class F = ClsFunction
  /\ path_exists fs "/work/job" = true
  /\ fs !! "job.pickle.in" = None
  /\ snd (fst (write ScriptSamples.posix_runtime false F fs))
       !! "job.pickle.in" = Some "pickled work"
  /\ snd (fst (write ScriptSamples.posix_runtime false F fs)) <> fs.
Proof.
  cbv zeta.
  assert (Hnew : snd (fst (write ScriptSamples.posix_runtime false
                             (the_object ScriptSamples.sample_function_object)
                             {["/work/job" := "old script"]}))
                 !! "job.pickle.in" = Some "pickled work")
    by (vm_compute; reflexivity).
  repeat split; try (vm_compute; reflexivity).
  intros E. rewrite E in Hnew. vm_compute in Hnew. discriminate Hnew.
Qed.

End Scripts.

(** ** Building a Function *)

Section Packaging.
Import PyString SubmissionScripts.

Lemma truthy_spec (s : string) : truthy s = true <-> s <> "".
Proof.
  unfold truthy. rewrite negb_true_iff. apply String.eqb_neq.
Qed.

Lemma Function_init_function rt so file_name function args imports pf outf
    rootmod :
  fn_rootmod function = Some rootmod ->
  fst (Function__init__ rt so file_name function args imports pf outf)
  = clobber_module rt (snd (module_path rt rootmod)) function.
Proof.
  intros Hmod. unfold Function__init__. rewrite Hmod.
  by destruct (module_path rt rootmod).
Qed.

Lemma module_path_file rt rootmod file :
  mod_file rootmod = Some file ->
  snd (module_path rt rootmod)
  = Some (fst (path_splitext rt (snd (path_split rt file)))).
Proof.
  intros Hfile. unfold module_path. rewrite Hfile.
  by destruct (path_split rt file).
Qed.

(** Whether line 112 is reached: the module has a file with a base name
    that is not empty, and the callable says it is of [__main__]. *)
Lemma clobber_condition rt rootmod (m : string) :
  opt_truthy (snd (module_path rt rootmod)) && String.eqb m "__main__" = true
  <-> m = "__main__"
      /\ exists file, mod_file rootmod = Some file
           /\ fst (path_splitext rt (snd (path_split rt file))) <> "".
Proof.
  rewrite andb_true_iff, String.eqb_eq. split.
  - intros [Ht Hm]. split; [exact Hm|].
    destruct (mod_file rootmod) as [file|] eqn:Hfile.
    + exists file. split; [done|].
      rewrite (module_path_file rt rootmod file Hfile) in Ht.
      by apply truthy_spec.
    + unfold module_path in Ht. rewrite Hfile in Ht. discriminate Ht.
  - intros [Hm (file & Hfile & Hstem)]. split; [|exact Hm].
    rewrite (module_path_file rt rootmod file Hfile).
    by apply truthy_spec.
Qed.


(** C9, as amended. Constructing a Function for a callable whose
    [__module__] is ["__main__"] and whose defining file is found, with
    a base name that is not empty once the extension is cut, changes the
    caller's object when that object lets [__module__] be assigned: for
    a plain function, and for a callable without [__name__], the
    [__module__] becomes that base name, every other attribute keeps its
    value, and [inspect.getmodule] afterwards finds what is loaded under
    the new name. A bound method refuses the assignment: it is left as
    it was and the construction raises AttributeError. In every other
    case the object is left as it was. *)
Theorem Function_init_module_side_effect rt so file_name c args imports pf
    outf :
  let after :=
    Function__init__callable rt so file_name c args imports pf outf in
  (forall rootmod file,
     callable_rootmod c = Some rootmod -> mod_file rootmod = Some file ->
     callable_module c = "__main__" ->
     fst (path_splitext rt (snd (path_split rt file))) <> "" ->
     let stem := fst (path_splitext rt (snd (path_split rt file))) in
     (forall f, c = PlainFunction f ->
        exists f', fst after = PlainFunction f'
          /\ fn_module f' = stem
          /\ fn_rootmod f' = sys_modules rt stem
          /\ fn_name f' = fn_name f
          /\ fn_series f' = fn_series f
          /\ fn_cell f' = fn_cell f)
     /\ (forall type_name m r, c = NamelessCallable type_name m r ->
           fst after = NamelessCallable type_name stem (sys_modules rt stem))
     /\ (forall f, c = BoundMethod f ->
           after = (c, Raise (AttributeError
                         "'method' object has no attribute '__module__'"))))
  /\ (callable_module c <> "__main__" -> fst after = c)
  /\ (callable_rootmod c = None -> fst after = c)
  /\ (forall rootmod,
        callable_rootmod c = Some rootmod ->
        (mod_file rootmod = None
         \/ exists file, mod_file rootmod = Some file
              /\ fst (path_splitext rt (snd (path_split rt file))) = "") ->
        fst after = c).
Proof.
  intros after.
  assert (Hkeep : forall rootmod,
            callable_rootmod c = Some rootmod ->
            opt_truthy (snd (module_path rt rootmod))
            && String.eqb (callable_module c) "__main__" = false ->
            fst after = c).
  { intros rootmod Hmod Hcond. unfold after, Function__init__callable.
    destruct c as [f|f|tn m r]; cbn [callable_rootmod callable_module] in *.
    - pose proof (Function_init_function rt so file_name f args imports pf
                    outf rootmod Hmod) as Hfst.
      destruct (Function__init__ _ _ _ f _ _ _ _) as [f' res].
      cbn [fst] in *. subst f'. f_equal.
      unfold clobber_module.
      destruct (snd (module_path rt rootmod)) as [stem|]; [|done].
      cbn [opt_truthy] in Hcond. by rewrite Hcond.
    - rewrite Hmod. destruct (module_path rt rootmod) as [dir impt].
      cbn [snd] in Hcond. by rewrite Hcond.
    - subst r. destruct (module_path rt rootmod) as [dir impt].
      cbn [snd] in Hcond. by rewrite Hcond. }
  split; [|split; [|split]].
  - intros rootmod file Hmod Hfile Hmain Hstem stem.
    assert (Hcond : opt_truthy (snd (module_path rt rootmod))
                    && String.eqb (callable_module c) "__main__" = true).
    { apply clobber_condition. split; [exact Hmain|]. by exists file. }
    pose proof (module_path_file rt rootmod file Hfile) as Hpath.
    fold stem in Hpath.
    split; [|split].
    + intros f ->. cbn [callable_rootmod callable_module] in *.
      pose proof (Function_init_function rt so file_name f args imports pf
                    outf rootmod Hmod) as Hfst.
      unfold after, Function__init__callable.
      destruct (Function__init__ _ _ _ f _ _ _ _) as [f' res].
      cbn [fst] in *. exists f'. split; [reflexivity|].
      unfold clobber_module in Hfst. rewrite Hpath in Hfst.
      cbn [opt_truthy] in Hcond. rewrite Hpath in Hcond. cbn [opt_truthy] in Hcond.
      rewrite Hcond in Hfst. subst f'. by cbn.
    + intros tn m r ->. cbn [callable_rootmod callable_module] in *.
      subst r. unfold after, Function__init__callable.
      destruct (module_path rt rootmod) as [dir impt]. cbn [snd] in *.
      rewrite Hcond. subst impt. reflexivity.
    + intros f ->. cbn [callable_rootmod callable_module] in *.
      unfold after, Function__init__callable. rewrite Hmod.
      destruct (module_path rt rootmod) as [dir impt]. cbn [snd] in *.
      by rewrite Hcond.
  - intros Hmain.
    destruct (callable_rootmod c) as [rootmod|] eqn:Hmod.
    + apply (Hkeep rootmod); [done|].
      apply String.eqb_neq in Hmain. rewrite Hmain. apply andb_false_r.
    + unfold after, Function__init__callable.
      destruct c as [f|f|tn m r]; cbn [callable_rootmod] in Hmod.
      * unfold Function__init__. by rewrite Hmod.
      * by rewrite Hmod.
      * by subst r.
  - intros Hmod. unfold after, Function__init__callable.
    destruct c as [f|f|tn m r]; cbn [callable_rootmod] in Hmod.
    + unfold Function__init__. by rewrite Hmod.
    + by rewrite Hmod.
    + by subst r.
  - intros rootmod Hmod Hfile. apply (Hkeep rootmod); [done|].
    apply not_true_is_false. intros Hcond.
    apply clobber_condition in Hcond as [_ (file & Hf & Hstem)].
    destruct Hfile as [Hnone|(file' & Hf' & Hempty)].
    + congruence.
    + rewrite Hf in Hf'. injection Hf' as <-. contradiction.
Qed.

Lemma Function_init_module_side_effect_witness :
  exists f',
    fst (Function__init__callable ScriptSamples.posix_runtime
           ScriptSamples.insertion_order "job"
           (PlainFunction ScriptSamples.work_func) None ArgNone None None)
    = PlainFunction f'
    /\ fn_module f' = "analysis"
    /\ fn_rootmod f' = None
    /\ fn_name f' = "work"
    /\ fn_series f' = fn_series ScriptSamples.work_func
    /\ fn_cell f' = fn_cell ScriptSamples.work_func.
Proof.
  apply (proj1 (proj1 (Function_init_module_side_effect
                         ScriptSamples.posix_runtime
                         ScriptSamples.insertion_order "job"
                         (PlainFunction ScriptSamples.work_func)
                         None ArgNone None None)
                  ScriptSamples.main_module "/work/analysis.py"
                  eq_refl eq_refl eq_refl ltac:(discriminate))
           ScriptSamples.work_func eq_refl).
Defined.

(** C9 as stated fails for a bound method: [work] as a method of a class
    of the main script has [__module__] ["__main__"] and a defining file
    that is found, yet its [__module__] is not set to [analysis]. The
    assignment raises and the method is left as it was. *)
Lemma Function_init_method_not_clobbered :
  callable_module ScriptSamples.work_method = "__main__"
  /\ callable_rootmod ScriptSamples.work_method
     = Some ScriptSamples.main_module
  /\ mod_file ScriptSamples.main_module = Some "/work/analysis.py"
  /\ Function__init__callable ScriptSamples.posix_runtime
       ScriptSamples.insertion_order "job" ScriptSamples.work_method None
       ArgNone None None
     = (ScriptSamples.work_method,
        Raise (AttributeError "'method' object has no attribute '__module__'"))
  /\ callable_module
       (fst (Function__init__callable ScriptSamples.posix_runtime
               ScriptSamples.insertion_order "job" ScriptSamples.work_method
               None ArgNone None None))
     <> "analysis".
Proof.
  split; [reflexivity|]. split; [reflexivity|]. split; [reflexivity|].
  split; [reflexivity|]. discriminate.
Qed.




(** *** The import chain *)

Lemma insert_by_perm {A} (key : A -> string) x (l : list A) :
  insert_by key x l ≡ₚ x :: l.
Proof.
  induction l as [|y l IH]; [done|]. cbn.
  destruct (String.leb (key x) (key y)); [done|].
  rewrite IH. apply Permutation_swap.
Qed.

Lemma sorted_perm {A} (key : A -> string) (l : list A) : sorted key l ≡ₚ l.
Proof.
  unfold sorted. induction l as [|x l IH]; [done|].
  cbn. by rewrite insert_by_perm, IH.
Qed.

Lemma insert_by_Sorted {A} (key : A -> string) x (l : list A) :
  Sorted (fun a b => String.leb (key a) (key b) = true) l ->
  Sorted (fun a b => String.leb (key a) (key b) = true) (insert_by key x l).
Proof.
  induction 1 as [|y l Hl IH Hhd]; cbn.
  - repeat constructor.
  - destruct (String.leb (key x) (key y)) eqn:Hxy.
    + repeat constructor; assumption.
    + constructor; [exact IH|].
      assert (Hyx : String.leb (key y) (key x) = true).
      { destruct (String.leb_total (key x) (key y)) as [H|H]; [congruence|done]. }
      destruct Hhd as [|z l' Hyz]; cbn.
      * by constructor.
      * destruct (String.leb (key x) (key z)); by constructor.
Qed.

Lemma sorted_Sorted {A} (key : A -> string) (l : list A) :
  Sorted (fun a b => String.leb (key a) (key b) = true) (sorted key l).
Proof.
  unfold sorted. induction l as [|x l IH]; cbn.
  - constructor.
  - by apply insert_by_Sorted.
Qed.

Lemma sorted_imports_perm so imports :
  set_order_valid so -> sorted_imports so imports ≡ₚ remove_dups imports.
Proof.
  intros [He _]. unfold sorted_imports, py_set_entries.
  by rewrite sorted_perm, He.
Qed.

Lemma import_chain_perm so imports :
  set_order_valid so ->
  import_chain so imports
  ≡ₚ remove_dups (filtered_imports (sorted_imports so imports)).
Proof. intros [_ Hs]. unfold import_chain, py_set_strings. apply Hs. Qed.

Lemma render_import_not_blacklisted imp s :
  render_import imp = Some s -> blacklisted imp = false.
Proof.
  unfold blacklisted, render_import.
  destruct imp as [n|iname name]; cbn [alias_of];
    case_bool_decide; [discriminate|done|discriminate|done].
Qed.

(** C5, as amended. Every statement of the import chain is the rendering
    of an entry of the import list that is neither a bare name on the
    blacklist (os, sys, dill, pickle) nor a pair binding a name on the
    blacklist. Entries that are whole statements, and pairs that bind a
    blacklisted module under another name, are not filtered. *)
Theorem import_chain_provenance so imports s :
  set_order_valid so ->
  s ∈ import_chain so imports ->
  exists imp,
    imp ∈ imports /\ render_import imp = Some s /\ blacklisted imp = false.
Proof.
  intros Hso Hs.
  rewrite (import_chain_perm so imports Hso) in Hs.
  rewrite elem_of_remove_dups in Hs. unfold filtered_imports in Hs.
  apply list_elem_of_omap in Hs. destruct Hs as (imp & Himp & Hrender).
  rewrite (sorted_imports_perm so imports Hso) in Himp.
  rewrite elem_of_remove_dups in Himp.
  exists imp. repeat split; try assumption.
  by apply (render_import_not_blacklisted imp s).
Qed.

Lemma insertion_order_valid : set_order_valid ScriptSamples.insertion_order.
Proof. split; intros l; reflexivity. Qed.

Lemma reverse_order_valid : set_order_valid ScriptSamples.reverse_order.
Proof. split; intros l; cbn; symmetry; apply Permutation_rev. Qed.

Lemma import_chain_provenance_witness :
  exists imp,
    imp ∈ [ImpName "os"; ImpName "numpy"]
    /\ render_import imp = Some (guarded "import numpy" +:+ nl)
    /\ blacklisted imp = false.
Proof.
  apply (import_chain_provenance ScriptSamples.insertion_order
           [ImpName "os"; ImpName "numpy"] (guarded "import numpy" +:+ nl)
           insertion_order_valid).
  vm_compute. apply list_elem_of_In. left. reflexivity.
Defined.

(** C5 as stated fails: the raw hint [import os] survives the filter, and
    so does the pair that binds the module [os] to the name [_os]. That
    pair is among the globals of the module itself, so the chain of a
    Function built with that one hint imports [os] twice. *)
Lemma import_chain_keeps_os :
  import_chain ScriptSamples.insertion_order [ImpName "import os"]
  = [guarded "import os"]
  /\ import_chain ScriptSamples.insertion_order [ImpPair "_os" "os"]
     = [guarded "import os as _os" +:+ nl]
  /\ match collect_imports ScriptSamples.posix_runtime
             ScriptSamples.main_module (ArgList [ImpName "import os"]) with
     | Ok imports =>
         In (guarded "import os")
            (import_chain ScriptSamples.insertion_order imports)
         /\ In (guarded "import os as _os" +:+ nl)
              (import_chain ScriptSamples.insertion_order imports)
     | Raise _ => False
     end.
Proof.
  split; [vm_compute; reflexivity|].
  split; [vm_compute; reflexivity|].
  vm_compute. split; tauto.
Qed.

(** C8, as amended. With any iteration order of sets, the import list
    after line 198 holds each distinct entry once, sorted by the module's
    own name (a pair's second component, a raw hint's text), and the
    statements joined into the script are the distinct renderings of
    that list, each once. *)
Theorem import_chain_sorted_dedup so imports :
  set_order_valid so ->
  NoDup (sorted_imports so imports)
  /\ (forall x, x ∈ sorted_imports so imports <-> x ∈ imports)
  /\ Sorted key_le (sorted_imports so imports)
  /\ NoDup (import_chain so imports)
  /\ (forall s, s ∈ import_chain so imports
               <-> s ∈ filtered_imports (sorted_imports so imports)).
Proof.
  intros Hso. repeat split.
  - rewrite (sorted_imports_perm so imports Hso). apply NoDup_remove_dups.
  - rewrite (sorted_imports_perm so imports Hso). apply elem_of_remove_dups.
  - rewrite (sorted_imports_perm so imports Hso). apply elem_of_remove_dups.
  - apply (sorted_Sorted _sort_imports).
  - rewrite (import_chain_perm so imports Hso). apply NoDup_remove_dups.
  - rewrite (import_chain_perm so imports Hso). apply elem_of_remove_dups.
  - rewrite (import_chain_perm so imports Hso). apply elem_of_remove_dups.
Qed.

Lemma import_chain_sorted_dedup_witness :
  let imports := [ImpPair "np" "numpy"; ImpName "scipy"; ImpPair "np" "numpy"] in
  NoDup (sorted_imports ScriptSamples.reverse_order imports)
  /\ (forall x, x ∈ sorted_imports ScriptSamples.reverse_order imports
               <-> x ∈ imports)
  /\ Sorted key_le (sorted_imports ScriptSamples.reverse_order imports)
  /\ NoDup (import_chain ScriptSamples.reverse_order imports)
  /\ (forall s, s ∈ import_chain ScriptSamples.reverse_order imports
               <-> s ∈ filtered_imports
                         (sorted_imports ScriptSamples.reverse_order imports)).
Proof.
  apply (import_chain_sorted_dedup ScriptSamples.reverse_order
           [ImpPair "np" "numpy"; ImpName "scipy"; ImpPair "np" "numpy"]).
  split; intros l; cbn; symmetry; apply Permutation_rev.
Defined.

(** C8 as stated fails. The list is sorted by module name, not by the
    bound name: the pairs binding [b] to module [a] and [a] to module [b]
    are rendered in the order of the modules, against the order of the
    aliases. And the order of the rendered statements is the order in
    which a set yields them: two iteration orders give two different
    import blocks for the same input. *)
Lemma import_chain_order_not_by_alias :
  import_chain ScriptSamples.insertion_order
    [ImpPair "b" "a"; ImpPair "a" "b"]
  = [guarded "import a as b" +:+ nl; guarded "import b as a" +:+ nl]
  /\ ~ Sorted alias_le
        (sorted_imports ScriptSamples.insertion_order
           [ImpPair "b" "a"; ImpPair "a" "b"])
  /\ import_chain ScriptSamples.reverse_order
       [ImpPair "b" "a"; ImpPair "a" "b"]
     <> import_chain ScriptSamples.insertion_order
          [ImpPair "b" "a"; ImpPair "a" "b"].
Proof.
  split; [vm_compute; reflexivity|]. split.
  - intros H. vm_compute in H.
    inversion H as [|? ? _ Hhd]; subst.
    inversion Hhd as [|? ? Hle]; subst.
    vm_compute in Hle. discriminate Hle.
  - intros E. vm_compute in E. discriminate E.
Qed.

End Packaging.

(** ** More on the fan-out: submission, failures, results *)

Section FanOutMore.
Import Pandas Helpers.

Lemma submits_app t1 t2 : submits (t1 ++ t2) = submits t1 ++ submits t2.
Proof. unfold submits. apply omap_app. Qed.

Lemma submits_submit js : submits (map EvSubmit js) = js.
Proof. induction js as [|j js IH]; [done|]. cbn. f_equal. exact IH. Qed.

Lemma submits_get l : submits (map EvGet l) = [].
Proof. induction l as [|x l IH]; [done|]. exact IH. Qed.

Lemma logs_app t1 t2 : logs (t1 ++ t2) = logs t1 ++ logs t2.
Proof. unfold logs. apply omap_app. Qed.

Lemma logs_submit js : logs (map EvSubmit js) = [].
Proof. induction js as [|j js IH]; [done|]. exact IH. Qed.

Lemma logs_get l : logs (map EvGet l) = [].
Proof. induction l as [|x l IH]; [done|]. exact IH. Qed.

(** Nothing is submitted while results are collected. *)
Lemma collect_submits B func args kw outs : forall acc,
  submits (fst (collect B func args kw outs acc)) = [].
Proof.
  induction outs as [|j outs IH]; intros acc; [done|].
  cbn [collect]. unfold Job_get.
  destruct (outcome B (job_index j)) as [|e].
  - destruct (sub_func_frame (job_applymap j) (job_shard j) func args kw)
      as [v Hv].
    rewrite Hv. cbn. specialize (IH (acc ++ [v])).
    destruct (collect B func args kw outs (acc ++ [v])) as [t r].
    exact IH.
  - by destruct e.
Qed.

Lemma merge_submits results axis : submits (fst (merge results axis)) = [].
Proof.
  unfold merge, bindM, tell, try_except, liftM.
  by destruct (concat results axis) as [out|[]].
Qed.

(** A job that failed with anything but an IOError ends the collection
    with that exception, and nothing is logged. *)
Lemma collect_fail_other B func args kw pre j post e : forall acc,
  Forall (fun j' => outcome B (job_index j') = JobDone) pre ->
  outcome B (job_index j) = JobFailed e ->
  e <> IOError ->
  collect B func args kw (pre ++ j :: post) acc
  = (map EvGet (map job_index (pre ++ [j])), Raise e).
Proof.
  induction pre as [|p pre IH]; intros acc Hdone Hfail He.
  - cbn [app collect]. unfold Job_get. rewrite Hfail.
    by destruct e.
  - inversion Hdone as [|? ? Hp Hrest]; subst.
    destruct (sub_func_frame (job_applymap p) (job_shard p) func args kw)
      as [v Hv].
    cbn [app collect]. unfold Job_get. rewrite Hp, Hv. cbn.
    rewrite (IH (acc ++ [v]) Hrest Hfail He). reflexivity.
Qed.

Lemma jobs_for_lookup name jobs applymap imports kw dfs count i j :
  jobs_for name jobs applymap imports kw count dfs !! i = Some j ->
  job_index j = count + i - 1
  /\ job_name j = name +:+ "_" +:+ pretty (count + i) +:+ "_of_" +:+ pystr jobs
  /\ dfs !! i = Some (job_shard j)
  /\ job_applymap j = applymap
  /\ job_imports j = imports
  /\ job_kwds j = kw.
Proof.
  unfold jobs_for. rewrite list_lookup_imap.
  destruct (dfs !! i) as [d|]; [|done]. cbn. intros [= <-]. by cbn.
Qed.

Lemma jobs_for_length name jobs applymap imports kw dfs count :
  length (jobs_for name jobs applymap imports kw count dfs) = length dfs.
Proof. unfold jobs_for. apply length_imap. Qed.

(** A run on which every job finishes: all jobs are submitted, each is
    awaited once in shard order, and the merge sees what each computed. *)
Lemma parapply_all_done B jobs df func args applymap axis merge_apply name
    imports kw rootmod :
  isinstance_int jobs = true ->
  (0 < int_value jobs)%Z ->
  fn_rootmod func = Some rootmod ->
  (forall i, outcome B i = JobDone) ->
  exists js,
    length js = Z.to_nat (int_value jobs)
    /\ parapply B jobs df func args applymap axis merge_apply name imports kw
       = let pk := snd (split_keywords B kw) in
         let results :=
           map (fun p =>
                  if applymap
                  then PFrame (DataFrame_applymap (fn_cell func args pk)
                                 (mkDF (df_columns df) p))
                  else DataFrame_apply (fn_series func args pk)
                         (mkDF (df_columns df) p))
               (reshape (section_sizes (nrows df) (Z.to_nat (int_value jobs)))
                  (df_rows df)) in
         let '(t, r) :=
           (let* out := merge results axis in
            if merge_apply then liftM (sub_func applymap out func args pk)
            else retM out) in
         (EvSplit (int_value jobs) :: map EvSubmit js
          ++ map EvGet (seq 0 (Z.to_nat (int_value jobs))) ++ t, r).
Proof.
  intros Hint HK Hmod Hdone.
  pose proof (array_split_df_ok df _ HK) as Hsplit.
  pose proof (array_split_df_length _ _ _ HK Hsplit) as Hlen.
  eexists. split; [|
    rewrite (parapply_running _ _ _ _ _ _ _ _ _ _ _ _ _ Hint Hsplit Hmod);
    cbv zeta;
    rewrite collect_all_done by (apply Forall_forall; intros; apply Hdone);
    rewrite jobs_for_indices by lia;
    rewrite (map_jobs_for
               (fun am d =>
                  if am
                  then PFrame (DataFrame_applymap
                                 (fn_cell func args (snd (split_keywords B kw)))
                                 d)
                  else DataFrame_apply
                         (fn_series func args (snd (split_keywords B kw))) d));
    rewrite (map_map (mkDF (df_columns df))); rewrite Hlen;
    unfold bindM at 1; cbn [app Nat.sub];
    match goal with
    | |- context [bindM (merge ?rs ?ax) ?k] =>
        destruct (bindM (merge rs ax) k) as [t r]
    end;
    reflexivity ].
  by rewrite jobs_for_length.
Qed.

Lemma concat_series (ss : list Series) (axis : Z) :
  ss <> [] ->
  concat (map PSeries ss) axis
  = if (axis =? 0)%Z then Ok (PSeries (mjoin ss))
    else if (axis =? 1)%Z then Ok (PFrame (concat_series_cols ss))
    else Raise (ValueError "No axis named").
Proof.
  intros Hss. unfold concat. rewrite all_series_PSeries.
  by destruct ss.
Qed.

Lemma concat_frames (dfs : list DataFrame) (axis : Z) :
  dfs <> [] ->
  concat (map PFrame dfs) axis
  = if (axis =? 0)%Z then Ok (PFrame (concat_frames_rows dfs))
    else if (axis =? 1)%Z then Ok (PFrame (concat_frames_cols dfs))
    else Raise (ValueError "No axis named").
Proof.
  intros Hdfs. unfold concat. rewrite all_frames_PFrame.
  by destruct dfs.
Qed.

(** The results of one fan-out are all series or all frames. *)
Lemma remote_results_shape (f : apply_fn) (g : cell -> cell) (applymap : bool)
    (ds : list DataFrame) :
  (exists ss, map (fun d => if applymap then PFrame (DataFrame_applymap g d)
                            else DataFrame_apply f d) ds = map PSeries ss
              /\ length ss = length ds /\ applymap = false)
  \/ (exists dfs, map (fun d => if applymap then PFrame (DataFrame_applymap g d)
                               else DataFrame_apply f d) ds = map PFrame dfs
                  /\ length dfs = length ds).
Proof.
  destruct applymap.
  - right. exists (map (DataFrame_applymap g) ds).
    by rewrite map_map, length_map.
  - destruct f as [r|m]; cbn [DataFrame_apply].
    + left. eexists. rewrite map_map. split; [reflexivity|].
      by rewrite length_map.
    + right. eexists. rewrite map_map. split; [reflexivity|].
      by rewrite length_map.
Qed.

Lemma reshape_section_nonempty {X} (l : list X) (k : nat) :
  0 < k -> reshape (section_sizes (length l) k) l <> [].
Proof.
  intros Hk E. apply (f_equal length) in E.
  rewrite length_reshape, length_section_sizes in E by done. cbn in E. lia.
Qed.

Lemma merge_series_ok (ss : list Series) (axis : Z) :
  ss <> [] -> axis = 0%Z \/ axis = 1%Z ->
  exists out, merge (map PSeries ss) axis = ([EvConcat axis], Ok out).
Proof.
  intros Hss Hax. unfold merge. rewrite (concat_series ss axis Hss).
  destruct Hax as [-> | ->]; cbn; eauto.
Qed.

Lemma merge_frames_ok (dfs : list DataFrame) (axis : Z) :
  dfs <> [] -> axis = 0%Z \/ axis = 1%Z ->
  exists d, merge (map PFrame dfs) axis = ([EvConcat axis], Ok (PFrame d)).
Proof.
  intros Hdfs Hax. unfold merge. rewrite (concat_frames dfs axis Hdfs).
  destruct Hax as [-> | ->]; cbn; eauto.
Qed.

Lemma merge_bad_axis (f : apply_fn) (g : cell -> cell) (applymap : bool)
    (ds : list DataFrame) (axis : Z) :
  ds <> [] -> axis <> 0%Z -> axis <> 1%Z ->
  merge (map (fun d => if applymap then PFrame (DataFrame_applymap g d)
                       else DataFrame_apply f d) ds) axis
  = ([EvConcat axis; EvLog "DataFrame concatenation failed!" "critical"],
     Raise (ValueError "No axis named")).
Proof.
  intros Hds H0 H1.
  apply Z.eqb_neq in H0. apply Z.eqb_neq in H1.
  destruct (remote_results_shape f g applymap ds)
    as [(ss & -> & Hlen & _) | (dfs & -> & Hlen)].
  - unfold merge. rewrite concat_series, H0, H1; [done|].
    intros ->. destruct ds; [done|]. cbn in Hlen. lia.
  - unfold merge. rewrite concat_frames, H0, H1; [done|].
    intros ->. destruct ds; [done|]. cbn in Hlen. lia.
Qed.

(** X1. When the job count is a positive integer, the function's module
    is found, the merge axis is 0 or 1 and every job finishes, parapply
    returns a result: it submits all jobs, then awaits each once in
    shard order, then concatenates once, and logs nothing. *)
Theorem parapply_succeeds B jobs df func args applymap axis merge_apply name
    imports kw :
  isinstance_int jobs = true ->
  (0 < int_value jobs)%Z ->
  is_Some (fn_rootmod func) ->
  (forall i, outcome B i = JobDone) ->
  axis = 0%Z \/ axis = 1%Z ->
  exists js out,
    length js = Z.to_nat (int_value jobs)
    /\ parapply B jobs df func args applymap axis merge_apply name imports kw
       = (EvSplit (int_value jobs) :: map EvSubmit js
          ++ map EvGet (seq 0 (Z.to_nat (int_value jobs)))
          ++ [EvConcat axis],
          Ok out).
Proof.
  intros Hint HK [rootmod Hmod] Hdone Hax.
  destruct (parapply_all_done B jobs df func args applymap axis merge_apply
              name imports kw rootmod Hint HK Hmod Hdone) as (js & Hlen & ->).
  exists js. cbv zeta.
  set (parts := reshape _ (df_rows df)).
  assert (Hparts : map (mkDF (df_columns df)) parts <> []).
  { intros E. apply (f_equal length) in E. rewrite length_map in E.
    pose proof (reshape_section_nonempty (df_rows df)
                  (Z.to_nat (int_value jobs)) ltac:(lia)) as Hne.
    fold (nrows df) in Hne. fold parts in Hne.
    destruct parts; [done|]. cbn in E. lia. }
  destruct (remote_results_shape
              (fn_series func args (snd (split_keywords B kw)))
              (fn_cell func args (snd (split_keywords B kw)))
              applymap (map (mkDF (df_columns df)) parts))
    as [(ss & Hrs & Hss & Ham) | (dfs & Hrs & Hdfs)];
    rewrite map_map in Hrs; rewrite Hrs.
  - destruct (merge_series_ok ss axis) as [out Hout]; [|done|].
    { intros ->. destruct (map _ parts); [done|]. cbn in Hss. lia. }
    unfold bindM. rewrite Hout. subst applymap.
    destruct merge_apply.
    + destruct out as [s0|d0]; cbn; eexists; (split; [exact Hlen|]);
        rewrite ?app_nil_r; reflexivity.
    + cbn. eexists. split; [exact Hlen|]. rewrite ?app_nil_r. reflexivity.
  - destruct (merge_frames_ok dfs axis) as [d Hout]; [|done|].
    { intros ->. destruct (map _ parts); [done|]. cbn in Hdfs. lia. }
    unfold bindM. rewrite Hout.
    destruct merge_apply.
    + destruct applymap; cbn; eexists; (split; [exact Hlen|]);
        rewrite ?app_nil_r; reflexivity.
    + cbn. eexists. split; [exact Hlen|]. rewrite ?app_nil_r. reflexivity.
Qed.

Lemma parapply_succeeds_witness :
  exists js out,
    length js = Z.to_nat 3
    /\ parapply Samples.all_done (PyInt 3) Samples.four_rows
         Samples.mean_func [] false 0 true "job" ImpNone []
       = (EvSplit 3 :: map EvSubmit js ++ map EvGet (seq 0 (Z.to_nat 3))
          ++ [EvConcat 0],
          Ok out).
Proof.
  apply (parapply_succeeds Samples.all_done (PyInt 3) Samples.four_rows
           Samples.mean_func [] false 0 true "job" ImpNone []).
  - reflexivity.
  - cbn. lia.
  - eexists. reflexivity.
  - intros i. reflexivity.
  - left. reflexivity.
Defined.

(** X2. A merge axis other than 0 or 1 is found out only at the end:
    all jobs are submitted and all results collected, then the
    concatenation fails with ValueError, which is logged as critical and
    raised. *)
Theorem parapply_bad_merge_axis B jobs df func args applymap axis merge_apply
    name imports kw :
  isinstance_int jobs = true ->
  (0 < int_value jobs)%Z ->
  is_Some (fn_rootmod func) ->
  (forall i, outcome B i = JobDone) ->
  axis <> 0%Z -> axis <> 1%Z ->
  exists js,
    length js = Z.to_nat (int_value jobs)
    /\ parapply B jobs df func args applymap axis merge_apply name imports kw
       = (EvSplit (int_value jobs) :: map EvSubmit js
          ++ map EvGet (seq 0 (Z.to_nat (int_value jobs)))
          ++ [EvConcat axis;
              EvLog "DataFrame concatenation failed!" "critical"],
          Raise (ValueError "No axis named")).
Proof.
  intros Hint HK [rootmod Hmod] Hdone H0 H1.
  destruct (parapply_all_done B jobs df func args applymap axis merge_apply
              name imports kw rootmod Hint HK Hmod Hdone) as (js & Hlen & ->).
  exists js. split; [exact Hlen|]. cbv zeta.
  rewrite <- (map_map (mkDF (df_columns df))
                (fun d => if applymap
                          then PFrame (DataFrame_applymap
                                 (fn_cell func args (snd (split_keywords B kw))) d)
                          else DataFrame_apply
                                 (fn_series func args (snd (split_keywords B kw))) d)).
  rewrite merge_bad_axis; [reflexivity| |done|done].
  intros E. apply (f_equal length) in E. rewrite length_map in E.
  pose proof (reshape_section_nonempty (df_rows df)
                (Z.to_nat (int_value jobs)) ltac:(lia)) as Hne.
  fold (nrows df) in Hne.
  destruct (reshape _ (df_rows df)); [done|]. cbn in E. lia.
Qed.

Lemma parapply_bad_merge_axis_witness :
  exists js,
    length js = Z.to_nat 2
    /\ parapply Samples.all_done (PyInt 2) Samples.four_rows
         Samples.mean_func [] false 2 false "job" ImpNone []
       = (EvSplit 2 :: map EvSubmit js ++ map EvGet (seq 0 (Z.to_nat 2))
          ++ [EvConcat 2;
              EvLog "DataFrame concatenation failed!" "critical"],
          Raise (ValueError "No axis named")).
Proof.
  apply (parapply_bad_merge_axis Samples.all_done (PyInt 2) Samples.four_rows
           Samples.mean_func [] false 2 false "job" ImpNone []).
  - reflexivity.
  - cbn. lia.
  - eexists. reflexivity.
  - intros i. reflexivity.
  - lia.
  - lia.
Defined.

(** X3. When [inspect.getmodule] finds no module for the function,
    parapply raises AttributeError after the dataset was split and
    before any job is submitted. *)
Theorem parapply_without_module B jobs df func args applymap axis merge_apply
    name imports kw :
  isinstance_int jobs = true ->
  (0 < int_value jobs)%Z ->
  fn_rootmod func = None ->
  parapply B jobs df func args applymap axis merge_apply name imports kw
  = ([EvSplit (int_value jobs)],
     Raise (AttributeError "'NoneType' object has no attribute '__name__'")).
Proof.
  intros Hint HK Hmod. unfold parapply.
  destruct (split_keywords B kw) as [fk pk]. rewrite Hint. cbn [negb].
  rewrite (array_split_df_ok df _ HK), Hmod. reflexivity.
Qed.

Lemma parapply_without_module_witness :
  parapply Samples.all_done (PyInt 2) Samples.four_rows
    ScriptSamples.orphan_func [] false 0 false "job" ImpNone []
  = ([EvSplit 2],
     Raise (AttributeError "'NoneType' object has no attribute '__name__'")).
Proof.
  apply (parapply_without_module Samples.all_done (PyInt 2) Samples.four_rows
           ScriptSamples.orphan_func [] false 0 false "job" ImpNone []).
  - reflexivity.
  - cbn. lia.
  - reflexivity.
Defined.

(** X4. When the first job that fails raises something other than an
    IOError, parapply lets that exception through as it is: the earlier
    shards were awaited in order, no later shard is awaited, nothing is
    concatenated and nothing is logged. *)
Theorem parapply_other_failure_unlogged B jobs df func args applymap axis
    merge_apply name imports kw (i : nat) (e : exn) :
  isinstance_int jobs = true ->
  (Z.of_nat i < int_value jobs)%Z ->
  is_Some (fn_rootmod func) ->
  (forall j, j < i -> outcome B j = JobDone) ->
  outcome B i = JobFailed e ->
  e <> IOError ->
  exists js,
    length js = Z.to_nat (int_value jobs)
    /\ parapply B jobs df func args applymap axis merge_apply name imports kw
       = (EvSplit (int_value jobs) :: map EvSubmit js
          ++ map EvGet (seq 0 (S i)),
          Raise e).
Proof.
  intros Hint Hi [rootmod Hmod] Hdone Hfail He.
  assert (HK : (0 < int_value jobs)%Z) by lia.
  pose proof (array_split_df_ok df _ HK) as Hsplit.
  pose proof (array_split_df_length _ _ _ HK Hsplit) as Hlen.
  rewrite (parapply_running _ _ _ _ _ _ _ _ _ _ _ _ _ Hint Hsplit Hmod).
  cbv zeta.
  set (js := jobs_for _ _ _ _ _ 1 _).
  assert (Hidx : map job_index js
                 = seq 0 (Z.to_nat (int_value jobs))).
  { unfold js. rewrite jobs_for_indices by lia. by rewrite Hlen. }
  assert (Hjs : length js = Z.to_nat (int_value jobs)).
  { by rewrite <- (length_map job_index), Hidx, length_seq. }
  exists js. split; [exact Hjs|].
  assert (Hi' : i < length js) by lia.
  destruct (lookup_lt_is_Some_2 js i Hi') as [j Hj].
  rewrite <- (take_drop_middle js i j Hj) at 1.
  assert (Hpre : map job_index (take i js) = seq 0 i).
  { change (map job_index (take i js)) with (job_index <$> take i js).
    rewrite fmap_take. change (job_index <$> js) with (map job_index js).
    rewrite Hidx, take_seq. f_equal. lia. }
  assert (Hji : job_index j = i).
  { assert (H : map job_index js !! i = Some (job_index j)).
    { change (map job_index js) with (job_index <$> js).
      by rewrite list_lookup_fmap, Hj. }
    rewrite Hidx in H. apply lookup_seq in H. lia. }
  rewrite (collect_fail_other B func _ _ (take i js) j (drop (S i) js) e).
  - cbv beta iota. do 3 f_equal.
    rewrite map_app, Hpre. cbn [map]. rewrite Hji.
    replace (S i) with (i + 1) by lia. by rewrite seq_app.
  - apply Forall_forall. intros j' Hj'. apply Hdone.
    assert (H : job_index j' ∈ map job_index (take i js)).
    { change (map job_index (take i js)) with (job_index <$> take i js).
      by apply list_elem_of_fmap_2. }
    rewrite Hpre in H. apply elem_of_seq in H. lia.
  - by rewrite Hji.
  - exact He.
Qed.

Lemma parapply_other_failure_unlogged_witness :
  exists js,
    length js = Z.to_nat 2
    /\ parapply Samples.first_raises (PyInt 2) Samples.four_rows
         Samples.mean_func [] false 0 false "job" ImpNone []
       = (EvSplit 2 :: map EvSubmit js ++ map EvGet (seq 0 1),
          Raise (ValueError "bad shard")).
Proof.
  apply (parapply_other_failure_unlogged Samples.first_raises (PyInt 2)
           Samples.four_rows Samples.mean_func [] false 0 false "job"
           ImpNone [] 0 (ValueError "bad shard")).
  - reflexivity.
  - cbn. lia.
  - eexists. reflexivity.
  - intros j Hj. lia.
  - reflexivity.
  - discriminate.
Defined.

Lemma collect_merge_submits B func args pk js axis (merge_apply : bool)
    applymap :
  submits (fst (let* results := collect B func args pk js [] in
                let* out := merge results axis in
                if merge_apply
                then liftM (sub_func applymap out func args pk)
                else retM out)) = [].
Proof.
  pose proof (collect_submits B func args pk js []) as Hc.
  unfold bindM.
  destruct (collect B func args pk js []) as [t1 [rs|e1]]; [|exact Hc].
  pose proof (merge_submits rs axis) as Hm.
  destruct (merge rs axis) as [t2 [out|e2]]; cbn [fst] in *.
  - destruct merge_apply; cbn [liftM retM].
    + destruct (sub_func applymap out func args pk); cbn [fst];
        by rewrite !submits_app, Hc, Hm.
    + cbn [fst]. by rewrite !submits_app, Hc, Hm.
  - by rewrite submits_app, Hc, Hm.
Qed.

(** X5. Submission is eager and in shard order. Once the argument
    check, the split and the module lookup went through, parapply
    submits one job per shard before it awaits anything, whatever the
    jobs do later: job [i] (from 0) is named [name_(i+1)_of_jobs],
    carries shard [i] and the caller's import hints followed by the
    fixed list, and nothing else is ever submitted. *)
Theorem parapply_submits_eagerly B jobs df func args applymap axis
    merge_apply name imports kw shards :
  isinstance_int jobs = true ->
  array_split_df df (int_value jobs) = Ok shards ->
  is_Some (fn_rootmod func) ->
  exists js t,
    fst (parapply B jobs df func args applymap axis merge_apply name imports
           kw)
    = EvSplit (int_value jobs) :: map EvSubmit js ++ t
    /\ submits t = []
    /\ length js = length shards
    /\ forall i j, js !! i = Some j ->
         job_index j = i
         /\ job_name j = name +:+ "_" +:+ pretty (S i) +:+ "_of_" +:+ pystr jobs
         /\ shards !! i = Some (job_shard j)
         /\ job_applymap j = applymap
         /\ job_imports j
            = match imports with
              | ImpNone | ImpStr "" | ImpList [] => []
              | ImpStr s => [s]
              | ImpList l => l
              end ++ sane_imports.
Proof.
  intros Hint Hsplit [rootmod Hmod].
  rewrite (parapply_running _ _ _ _ _ _ _ _ _ _ _ _ _ Hint Hsplit Hmod).
  cbv zeta.
  set (js := jobs_for _ _ _ _ _ 1 shards).
  pose proof (collect_merge_submits B func args (snd (split_keywords B kw)) js
                axis merge_apply applymap) as Hq.
  match goal with
  | |- context [bindM (collect ?B ?f ?a ?pk ?o ?acc) ?k] =>
      destruct (bindM (collect B f a pk o acc) k) as [t r]
  end.
  exists js, t. cbn [fst] in *.
  split; [reflexivity|]. split; [exact Hq|].
  split; [apply jobs_for_length|].
  intros i j Hj. apply jobs_for_lookup in Hj.
  destruct Hj as (H1 & H2 & H3 & H4 & H5 & _).
  repeat split; try assumption. lia.
Qed.

Lemma parapply_submits_eagerly_witness :
  exists js t,
    fst (parapply Samples.second_crashes (PyInt 2) Samples.four_rows
           Samples.mean_func [] false 0 false "job" (ImpStr "import math") [])
    = EvSplit 2 :: map EvSubmit js ++ t
    /\ submits t = []
    /\ length js = 2
    /\ forall i j, js !! i = Some j ->
         job_index j = i
         /\ job_name j
            = "job" +:+ "_" +:+ pretty (S i) +:+ "_of_" +:+ pystr (PyInt 2)
         /\ [mkDF (df_columns Samples.four_rows)
               (take 2 (df_rows Samples.four_rows));
             mkDF (df_columns Samples.four_rows)
               (drop 2 (df_rows Samples.four_rows))] !! i
            = Some (job_shard j)
         /\ job_applymap j = false
         /\ job_imports j = ["import math"] ++ sane_imports.
Proof.
  apply (parapply_submits_eagerly Samples.second_crashes (PyInt 2)
           Samples.four_rows Samples.mean_func [] false 0 false "job"
           (ImpStr "import math") []
           [mkDF (df_columns Samples.four_rows)
              (take 2 (df_rows Samples.four_rows));
            mkDF (df_columns Samples.four_rows)
              (drop 2 (df_rows Samples.four_rows))]).
  - reflexivity.
  - reflexivity.
  - eexists. reflexivity.
Defined.

Lemma parapply_submitted_jobs B jobs df func args applymap axis merge_apply
    name imports kw shards rootmod :
  isinstance_int jobs = true ->
  array_split_df df (int_value jobs) = Ok shards ->
  fn_rootmod func = Some rootmod ->
  submits (fst (parapply B jobs df func args applymap axis merge_apply name
                  imports kw))
  = jobs_for name jobs applymap (job_import_list imports)
      (set_default "clean_outputs" (PyBool true)
         (set_default "clean_files" (PyBool true)
            (fst (split_keywords B kw)))) 1 shards.
Proof.
  intros Hint Hsplit Hmod.
  rewrite (parapply_running _ _ _ _ _ _ _ _ _ _ _ _ _ Hint Hsplit Hmod).
  cbv zeta.
  pose proof (collect_merge_submits B func args (snd (split_keywords B kw))
                (jobs_for name jobs applymap (job_import_list imports)
                   (set_default "clean_outputs" (PyBool true)
                      (set_default "clean_files" (PyBool true)
                         (fst (split_keywords B kw)))) 1 shards)
                axis merge_apply applymap) as Hq.
  match goal with
  | |- context [bindM (collect ?B ?f ?a ?pk ?o ?acc) ?k] =>
      destruct (bindM (collect B f a pk o acc) k) as [t r]
  end.
  cbn [fst] in *.
  change (EvSplit ?x :: ?l) with ([EvSplit x] ++ l).
  rewrite !submits_app, submits_submit, Hq. cbn. by rewrite app_nil_r.
Qed.

Lemma set_default_keys k v (d : kwds) k' :
  k' ∈ map fst (set_default k v d) <-> k' ∈ map fst d \/ k' = k.
Proof.
  unfold set_default. case_bool_decide as Hk.
  - split; [by left|]. intros [H| ->]; assumption.
  - rewrite map_app, elem_of_app. cbn. rewrite list_elem_of_singleton.
    reflexivity.
Qed.

(** X6. The cleaning defaults never override the caller. Every submitted
    job gets the caller's backend options unchanged and in order,
    followed by [clean_files=True] only if the caller gave no
    [clean_files], and by [clean_outputs=True] only if the caller gave
    no [clean_outputs]. *)
Theorem parapply_cleaning_defaults B jobs df func args applymap axis
    merge_apply name imports kw shards (j : job) :
  isinstance_int jobs = true ->
  array_split_df df (int_value jobs) = Ok shards ->
  is_Some (fn_rootmod func) ->
  j ∈ submits (fst (parapply B jobs df func args applymap axis merge_apply
                      name imports kw)) ->
  job_kwds j
  = fst (split_keywords B kw)
    ++ (if bool_decide ("clean_files" ∈ map fst (fst (split_keywords B kw)))
        then [] else [("clean_files", PyBool true)])
    ++ (if bool_decide ("clean_outputs" ∈ map fst (fst (split_keywords B kw)))
        then [] else [("clean_outputs", PyBool true)]).
Proof.
  intros Hint Hsplit [rootmod Hmod] Hj.
  rewrite (parapply_submitted_jobs _ _ _ _ _ _ _ _ _ _ _ _ _ Hint Hsplit Hmod)
    in Hj.
  apply list_elem_of_lookup in Hj. destruct Hj as [i Hi].
  apply jobs_for_lookup in Hi. destruct Hi as (_ & _ & _ & _ & _ & ->).
  set (fk := fst (split_keywords B kw)).
  unfold set_default at 1.
  assert (Hco : "clean_outputs" ∈ map fst (set_default "clean_files"
                                              (PyBool true) fk)
                <-> "clean_outputs" ∈ map fst fk).
  { rewrite set_default_keys. split; [intros [H|H]; [done|discriminate]|].
    by left. }
  unfold set_default in *.
  repeat case_bool_decide; rewrite ?app_nil_r, <- ?app_assoc;
    try reflexivity; tauto.
Qed.

Lemma parapply_cleaning_defaults_witness :
  Forall (fun j => job_kwds j = [("clean_files", PyBool false);
                                 ("mem", PyInt 4);
                                 ("clean_outputs", PyBool true)])
    (submits (fst (parapply Samples.first_raises (PyInt 2)
                     Samples.four_rows Samples.mean_func [] false 0 false
                     "job" ImpNone
                     [("clean_files", PyBool false); ("mem", PyInt 4)]))).
Proof.
  apply Forall_forall. intros j Hj.
  apply (parapply_cleaning_defaults Samples.first_raises (PyInt 2)
           Samples.four_rows Samples.mean_func [] false 0 false "job" ImpNone
           [("clean_files", PyBool false); ("mem", PyInt 4)]
           _ j eq_refl eq_refl (ex_intro _ _ eq_refl) Hj).
Defined.

Lemma join_map_map {X Y} (f : X -> Y) (ls : list (list X)) :
  mjoin (map (map f) ls) = map f (mjoin ls).
Proof.
  induction ls as [|l ls IH]; [done|].
  change (mjoin (map (map f) (l :: ls)))
    with (map f l ++ mjoin (map (map f) ls)).
  change (mjoin (l :: ls)) with (l ++ mjoin ls).
  by rewrite IH, map_app.
Qed.

Lemma concat_frames_rows_shared cols (ps : list (list (label * list cell))) :
  ps <> [] ->
  concat_frames_rows (map (mkDF cols) ps) = mkDF cols (mjoin ps).
Proof.
  intros Hps. unfold concat_frames_rows. rewrite !map_map.
  cbn [df_columns df_rows].
  replace (map (fun _ : list (label * list cell) => cols) ps)
    with (replicate (length ps) cols)
    by (clear; induction ps; cbn; congruence).
  rewrite same_labels_replicate, map_id.
  by destruct ps.
Qed.

(** X7. With [applymap] and the default merge axis, fanning out gives
    what the function gives on the unsplit frame: when every job
    finishes, parapply returns the frame with the function applied to
    every cell, for any positive number of jobs. With [merge_apply] the
    function is applied to every cell a second time. *)
Theorem parapply_applymap_direct B jobs df func args merge_apply name imports
    kw :
  isinstance_int jobs = true ->
  (0 < int_value jobs)%Z ->
  is_Some (fn_rootmod func) ->
  (forall i, outcome B i = JobDone) ->
  snd (parapply B jobs df func args true 0 merge_apply name imports kw)
  = Ok (PFrame
          (let g := fn_cell func args (snd (split_keywords B kw)) in
           if merge_apply
           then DataFrame_applymap g (DataFrame_applymap g df)
           else DataFrame_applymap g df)).
Proof.
  intros Hint HK [rootmod Hmod] Hdone.
  destruct (parapply_all_done B jobs df func args true 0 merge_apply
              name imports kw rootmod Hint HK Hmod Hdone) as (js & Hlen & ->).
  cbv zeta.
  set (g := fn_cell func args (snd (split_keywords B kw))).
  set (parts := reshape _ (df_rows df)).
  assert (Hparts : parts <> []).
  { apply (reshape_section_nonempty (df_rows df)). lia. }
  assert (Hjoin : mjoin parts = df_rows df).
  { apply join_reshape, sum_section_sizes. lia. }
  assert (Hrs : map (fun p => PFrame (DataFrame_applymap g
                                        (mkDF (df_columns df) p))) parts
                = map PFrame
                    (map (mkDF (df_columns df))
                       (map (map (fun r => (fst r, map g (snd r)))) parts))).
  { rewrite !map_map. apply map_ext. intros p. reflexivity. }
  rewrite Hrs. unfold merge, bindM, tell, try_except, liftM, retM.
  rewrite concat_frames by (by destruct parts).
  cbn [Z.eqb]. rewrite concat_frames_rows_shared by (by destruct parts).
  rewrite join_map_map, Hjoin.
  destruct merge_apply; cbn; reflexivity.
Qed.

Lemma parapply_applymap_direct_witness :
  snd (parapply Samples.all_done (PyInt 3) Samples.four_rows
         Samples.mean_func [] true 0 false "job" ImpNone [])
  = Ok (PFrame (DataFrame_applymap (fun c => c) Samples.four_rows)).
Proof.
  apply (parapply_applymap_direct Samples.all_done (PyInt 3)
           Samples.four_rows Samples.mean_func [] false "job" ImpNone []).
  - reflexivity.
  - cbn. lia.
  - eexists. reflexivity.
  - intros i. reflexivity.
Defined.

(** X8. With a reducing function and the default merge axis, parapply
    does not return one value per column: when every job finishes it
    returns the per-shard reductions stacked in shard order, one entry
    per shard and column. *)
Theorem parapply_reducer_stacks B jobs df func args name imports kw g :
  isinstance_int jobs = true ->
  (0 < int_value jobs)%Z ->
  is_Some (fn_rootmod func) ->
  (forall i, outcome B i = JobDone) ->
  fn_series func args (snd (split_keywords B kw)) = Reducer g ->
  exists s,
    snd (parapply B jobs df func args false 0 false name imports kw)
    = Ok (PSeries s)
    /\ s = mjoin (map (fun p => imap (fun j c =>
                                        (c, g (column j
                                                 (mkDF (df_columns df) p))))
                                   (df_columns df))
                    (reshape (section_sizes (nrows df)
                                (Z.to_nat (int_value jobs))) (df_rows df)))
    /\ length s = Z.to_nat (int_value jobs) * length (df_columns df).
Proof.
  intros Hint HK [rootmod Hmod] Hdone Hg.
  destruct (parapply_all_done B jobs df func args false 0 false
              name imports kw rootmod Hint HK Hmod Hdone) as (js & Hlen & ->).
  cbv zeta. rewrite Hg. cbn [DataFrame_apply df_columns].
  set (parts := reshape _ (df_rows df)).
  assert (Hparts : parts <> []).
  { apply (reshape_section_nonempty (df_rows df)). lia. }
  assert (Hcount : length parts = Z.to_nat (int_value jobs)).
  { unfold parts. rewrite length_reshape, length_section_sizes; lia. }
  eexists. split; [|split; [reflexivity|]].
  - rewrite <- (map_map (fun p => imap (fun j c =>
                           (c, g (column j (mkDF (df_columns df) p))))
                           (df_columns df)) PSeries).
    unfold merge, bindM, tell, try_except, liftM, retM.
    rewrite concat_series by (by destruct parts).
    reflexivity.
  - rewrite <- sum_lengths_join, map_map.
    rewrite <- Hcount. clear.
    induction parts as [|p parts IH]; [done|].
    cbn. rewrite length_imap. cbn in IH. by rewrite IH.
Qed.

Lemma parapply_reducer_stacks_witness :
  exists s,
    snd (parapply Samples.all_done (PyInt 2) Samples.four_rows
           Samples.mean_func [] false 0 false "job" ImpNone [])
    = Ok (PSeries s)
    /\ s = mjoin (map (fun p => imap (fun j c =>
                                        (c, Samples.exact_mean (column j
                                                    (mkDF (df_columns Samples.four_rows) p))))
                                   (df_columns Samples.four_rows))
                    (reshape (section_sizes (nrows Samples.four_rows)
                                (Z.to_nat 2)) (df_rows Samples.four_rows)))
    /\ length s = Z.to_nat 2 * length (df_columns Samples.four_rows).
Proof.
  apply (parapply_reducer_stacks Samples.all_done (PyInt 2)
           Samples.four_rows Samples.mean_func [] "job" ImpNone []
           Samples.exact_mean).
  - reflexivity.
  - cbn. lia.
  - eexists. reflexivity.
  - intros i. reflexivity.
  - reflexivity.
Defined.

End FanOutMore.

(** ** The life of a script: written, cleaned *)

Section Lifecycle.
Import PyString SubmissionScripts.

Lemma class_written (c : pyclass) :
  class_lookup (mro c) "written" = Some (ABool false).
Proof. destruct c; vm_compute; reflexivity. Qed.

Lemma class_exists (c : pyclass) : class_lookup (mro c) "exists" = None.
Proof. destruct c; vm_compute; reflexivity. Qed.

Lemma getattr_written_default fs (self : pyobject) :
  ob_dict self !! "written" = None ->
  getattr fs self "written" = Ok (ABool false).
Proof.
  intros H. unfold getattr, lookup_defined. by rewrite H, class_written.
Qed.

Lemma getattr_exists (fs : gmap string string) (self : pyobject) p :
  ob_dict self !! "exists" = None ->
  ob_dict self !! "file_name" = Some (AStr p) ->
  getattr fs self "exists" = Ok (ABool (path_exists fs p)).
Proof.
  intros Hex Hp. unfold getattr, lookup_defined at 1.
  rewrite Hex, class_exists. unfold Script__getattr__.
  by rewrite String.eqb_refl, (lookup_defined_instance self _ _ Hp).
Qed.

(** Removing a path that may be absent. *)
Lemma remove_if_exists (fs : gmap string string) p :
  (if path_exists fs p then remove_file p fs else fs) = delete p fs.
Proof.
  unfold path_exists, remove_file.
  destruct (fs !! p) eqn:E; [done|]. symmetry. by apply delete_id.
Qed.

Lemma Script_clean_written (self : pyobject) (fs : gmap string string) p :
  ob_dict self !! "written" = Some (ABool true) ->
  ob_dict self !! "exists" = None ->
  ob_dict self !! "file_name" = Some (AStr p) ->
  Script_clean self fs = (delete p fs, Ok ANone).
Proof.
  intros Hw Hex Hp. unfold Script_clean.
  rewrite (getattr_instance fs self _ _ Hw). cbn [is_truthy].
  rewrite (getattr_exists fs self p Hex Hp). cbn [is_truthy].
  rewrite (getattr_instance fs self _ _ Hp).
  rewrite <- (remove_if_exists fs p).
  by destruct (path_exists fs p).
Qed.

Lemma Script_clean_unwritten (self : pyobject) (fs : gmap string string) :
  ob_dict self !! "written" = None ->
  Script_clean self fs = (fs, Ok ANone).
Proof.
  intros Hw. unfold Script_clean.
  by rewrite (getattr_written_default fs self Hw).
Qed.

(** X9. Cleaning never deletes what was not written: for a Script or a
    Function whose [written] was never set, [clean] leaves every file
    as it is and returns None, also when the script, payload or output
    files exist on disk. *)
Theorem clean_unwritten_is_noop (delete_output : bool) (self : pyobject)
    (fs : gmap string string) :
  ob_dict self !! "written" = None ->
  clean delete_output self fs = (fs, Ok ANone).
Proof.
  intros Hw. unfold clean, Function_clean.
  rewrite (getattr_written_default fs self Hw). cbn [is_truthy].
  destruct (ob_class self); by apply Script_clean_unwritten.
Qed.

Lemma clean_unwritten_is_noop_witness :
  clean true (new_Script ScriptSamples.posix_runtime "run.sh" "echo hi")
    {["/work/run.sh" := "somebody else's"]}
  = ({["/work/run.sh" := "somebody else's"]}, Ok ANone).
Proof.
  apply (clean_unwritten_is_noop true
           (new_Script ScriptSamples.posix_runtime "run.sh" "echo hi")).
  reflexivity.
Defined.

(** X10. The life of a Script. Writing a fresh Script (with [overwrite],
    or to a path that does not exist) puts the text and a final newline
    at the absolute path and touches no other path; cleaning it then
    removes that path and nothing else, [written] stays true while
    [exists] turns false, and a second clean changes nothing and does
    not raise. *)
Theorem Script_write_then_clean rt (overwrite : bool) file_name script
    (fs : gmap string string) :
  overwrite = true \/ path_exists fs (abspath rt file_name) = false ->
  let p := abspath rt file_name in
  let '(self1, fs1, r1) :=
    Script_write overwrite (new_Script rt file_name script) fs in
  r1 = Ok (AStr p)
  /\ fs1 !! p = Some (script +:+ nl)
  /\ (forall q, q <> p -> fs1 !! q = fs !! q)
  /\ getattr fs1 self1 "exists" = Ok (ABool true)
  /\ Script_clean self1 fs1 = (delete p fs, Ok ANone)
  /\ getattr (delete p fs) self1 "written" = Ok (ABool true)
  /\ getattr (delete p fs) self1 "exists" = Ok (ABool false)
  /\ Script_clean self1 (delete p fs) = (delete p fs, Ok ANone).
Proof.
  intros Hcan. cbv zeta.
  set (p := abspath rt file_name).
  set (self := new_Script rt file_name script).
  assert (Hp : ob_dict self !! "file_name" = Some (AStr p)) by reflexivity.
  assert (Hs : ob_dict self !! "script" = Some (AStr script)) by reflexivity.
  assert (Hex : ob_dict self !! "exists" = None) by reflexivity.
  rewrite (Script_write_spec overwrite self fs p script Hp Hs).
  assert (Hgo : overwrite || negb (path_exists fs p) = true).
  { destruct Hcan as [-> | Hno]; [done|].
    fold p in Hno. rewrite Hno. by destruct overwrite. }
  rewrite Hgo.
  set (self1 := set_attr "written" (ABool true) self).
  assert (Hp1 : ob_dict self1 !! "file_name" = Some (AStr p)) by reflexivity.
  assert (Hex1 : ob_dict self1 !! "exists" = None) by reflexivity.
  assert (Hw1 : ob_dict self1 !! "written" = Some (ABool true))
    by reflexivity.
  split; [reflexivity|].
  split; [apply lookup_insert_eq|].
  split; [intros q Hq; by apply lookup_insert_ne|].
  split.
  { rewrite (getattr_exists _ self1 p Hex1 Hp1). unfold path_exists.
    by rewrite lookup_insert_eq. }
  split.
  { rewrite (Script_clean_written self1 _ p Hw1 Hex1 Hp1).
    by rewrite delete_insert_eq. }
  split; [exact (getattr_instance _ self1 _ _ Hw1)|].
  split.
  { rewrite (getattr_exists _ self1 p Hex1 Hp1). unfold path_exists.
    by rewrite lookup_delete_eq. }
  rewrite (Script_clean_written self1 _ p Hw1 Hex1 Hp1).
  f_equal. apply delete_id. apply lookup_delete_eq.
Qed.

Lemma Script_write_then_clean_witness :
  let '(self1, fs1, r1) :=
    Script_write false
      (new_Script ScriptSamples.posix_runtime "run.sh" "echo hi") ∅ in
  r1 = Ok (AStr "/work/run.sh")
  /\ fs1 !! "/work/run.sh" = Some ("echo hi" +:+ nl)
  /\ (forall q, q <> "/work/run.sh" -> fs1 !! q = (∅ : gmap string string) !! q)
  /\ getattr fs1 self1 "exists" = Ok (ABool true)
  /\ Script_clean self1 fs1 = (delete "/work/run.sh" ∅, Ok ANone)
  /\ getattr (delete "/work/run.sh" ∅) self1 "written" = Ok (ABool true)
  /\ getattr (delete "/work/run.sh" ∅) self1 "exists" = Ok (ABool false)
  /\ Script_clean self1 (delete "/work/run.sh" ∅)
     = (delete "/work/run.sh" ∅, Ok ANone).
Proof.
  apply (Script_write_then_clean ScriptSamples.posix_runtime false "run.sh"
           "echo hi" ∅).
  right. reflexivity.
Defined.

(** X11. Cleaning a written Function removes the pickle file and the
    script, and the output file only when [delete_output] is set; every
    other path keeps its content, and files that are already gone do not
    make it raise. *)
Theorem Function_clean_written (delete_output : bool) (self : pyobject)
    (fs : gmap string string) p pf outp :
  ob_class self = ClsFunction ->
  ob_dict self !! "written" = Some (ABool true) ->
  ob_dict self !! "exists" = None ->
  ob_dict self !! "file_name" = Some (AStr p) ->
  ob_dict self !! "pickle_file" = Some (AStr pf) ->
  ob_dict self !! "outfile" = Some (AStr outp) ->
  clean delete_output self fs
  = (delete p (if delete_output then delete outp (delete pf fs)
               else delete pf fs), Ok ANone).
Proof.
  intros Hcls Hw Hex Hp Hpf Hout. unfold clean. rewrite Hcls.
  unfold Function_clean.
  rewrite (getattr_instance fs self _ _ Hw). cbn [is_truthy].
  unfold remove_if_file at 1.
  rewrite (getattr_instance fs self _ _ Hpf), remove_if_exists.
  destruct delete_output.
  - unfold remove_if_file.
    rewrite (getattr_instance _ self _ _ Hout), remove_if_exists.
    by apply Script_clean_written.
  - by apply Script_clean_written.
Qed.

(** X12. A payload can be left behind. When the script is already on
    disk, [write] without [overwrite] on a fresh Function still writes
    the pickle file but leaves [written] unset; a [clean] after it
    therefore removes nothing, and the pickle file stays. *)
Theorem Function_skipped_write_leaves_payload rt (delete_output : bool)
    (self : pyobject) (fs : gmap string string) p text pf f a bytes :
  ob_class self = ClsFunction ->
  ob_dict self !! "written" = None ->
  ob_dict self !! "file_name" = Some (AStr p) ->
  ob_dict self !! "script" = Some (AStr text) ->
  ob_dict self !! "pickle_file" = Some (AStr pf) ->
  ob_dict self !! "function" = Some (AFunc f) ->
  ob_dict self !! "args" = Some a ->
  dumps rt f (match a with AArgs l => Some l | _ => None end) = Some bytes ->
  path_exists fs p = true ->
  let '(self1, fs1, r1) := write rt false self fs in
  self1 = self
  /\ fs1 = <[pf := bytes]> fs
  /\ clean delete_output self1 fs1 = (fs1, Ok ANone)
  /\ fst (clean delete_output self1 fs1) !! pf = Some bytes.
Proof.
  intros Hcls Hw Hp Ht Hpf Hf Ha Hdump Hexists.
  unfold write. rewrite Hcls. unfold Function_write.
  rewrite (getattr_instance fs self _ _ Hpf).
  rewrite (getattr_instance _ self _ _ Hf), (getattr_instance _ self _ _ Ha).
  rewrite Hdump. unfold write_file. rewrite insert_insert_eq.
  rewrite (Script_write_spec false self _ p text Hp Ht).
  assert (Hstill : path_exists (<[pf := bytes]> fs) p = true).
  { unfold path_exists in *. destruct (decide (pf = p)) as [->|Hne].
    - by rewrite lookup_insert_eq.
    - by rewrite lookup_insert_ne. }
  rewrite Hstill. cbn [orb negb].
  split; [reflexivity|]. split; [reflexivity|].
  assert (Hclean : clean delete_output self (<[pf := bytes]> fs)
                   = (<[pf := bytes]> fs, Ok ANone)).
  { unfold clean, Function_clean. rewrite Hcls.
    rewrite (getattr_written_default _ self Hw). cbn [is_truthy].
    by apply Script_clean_unwritten. }
  rewrite Hclean.
  split; [reflexivity|]. apply lookup_insert_eq.
Qed.

Lemma Function_clean_written_witness :
  clean true
    (set_attr "written" (ABool true)
       (the_object ScriptSamples.sample_function_object))
    {["/work/job" := "script"; "job.pickle.in" := "payload";
      "job.pickle.out" := "result"; "/work/data.csv" := "data"]}
  = (delete "/work/job"
       (delete "job.pickle.out"
          (delete "job.pickle.in"
             {["/work/job" := "script"; "job.pickle.in" := "payload";
               "job.pickle.out" := "result"; "/work/data.csv" := "data"]})),
     Ok ANone).
Proof.
  apply (Function_clean_written true
           (set_attr "written" (ABool true)
              (the_object ScriptSamples.sample_function_object))
           _ "/work/job" "job.pickle.in" "job.pickle.out");
    vm_compute; reflexivity.
Defined.

Lemma Function_skipped_write_leaves_payload_witness :
  let '(self1, fs1, r1) :=
    write ScriptSamples.posix_runtime false
      (the_object ScriptSamples.sample_function_object)
      {["/work/job" := "old script"]} in
  self1 = the_object ScriptSamples.sample_function_object
  /\ fs1 = <["job.pickle.in" := "pickled work"]>
             {["/work/job" := "old script"]}
  /\ clean true self1 fs1 = (fs1, Ok ANone)
  /\ fst (clean true self1 fs1) !! "job.pickle.in" = Some "pickled work".
Proof.
  apply (Function_skipped_write_leaves_payload ScriptSamples.posix_runtime
           true (the_object ScriptSamples.sample_function_object)
           {["/work/job" := "old script"]} "/work/job"
           (match ob_dict (the_object ScriptSamples.sample_function_object)
                    !! "script" with
            | Some (AStr t) => t
            | _ => ""
            end)
           "job.pickle.in"
           (set_fn_module ScriptSamples.posix_runtime "analysis"
            ScriptSamples.work_func) ANone
           "pickled work");
    vm_compute; reflexivity.
Defined.

End Lifecycle.

(** ** What the constructor of Function leaves behind *)

Section Constructor.
Import PyString SubmissionScripts.

(** X13. A Function that was constructed has its script path made
    absolute, while the payload and output paths are the ones given, or
    else [file_name] with [.pickle.in] and [.pickle.out] appended as it
    was passed; it holds the caller's function object as the constructor
    left it, starts unwritten, and its script begins with the interpreter
    line. *)
Theorem Function_init_attributes rt so file_name function args imports pf
    outf function' obj :
  Function__init__ rt so file_name function args imports pf outf
  = (function', Ok obj) ->
  ob_class obj = ClsFunction
  /\ ob_dict obj !! "file_name" = Some (AStr (abspath rt file_name))
  /\ ob_dict obj !! "pickle_file"
     = Some (AStr (match pf with
                   | Some (String c s) => String c s
                   | _ => file_name +:+ ".pickle.in"
                   end))
  /\ ob_dict obj !! "outfile"
     = Some (AStr (match outf with
                   | Some (String c s) => String c s
                   | _ => file_name +:+ ".pickle.out"
                   end))
  /\ ob_dict obj !! "function" = Some (AFunc function')
  /\ ob_dict obj !! "args"
     = Some (match args with Some l => AArgs l | None => ANone end)
  /\ (exists body,
        ob_dict obj !! "script"
        = Some (AStr ("#!" +:+ executable rt +:+ nl +:+ body)))
  /\ ob_dict obj !! "written" = None
  /\ ob_dict obj !! "exists" = None.
Proof.
  unfold Function__init__.
  destruct (fn_rootmod function) as [rootmod|]; [|discriminate].
  destruct (module_path rt rootmod) as [imppath impt].
  destruct (module_import_string _ _ _ _ _) as [modstr|e]; [|discriminate].
  destruct (collect_imports rt rootmod imports) as [imports2|e];
    [|discriminate].
  intros [= <- <-].
  split; [reflexivity|]. split; [reflexivity|].
  split; [by destruct pf as [[|c s]|]|].
  split; [by destruct outf as [[|c s]|]|].
  split; [reflexivity|]. split; [reflexivity|].
  split; [eexists; reflexivity|].
  split; reflexivity.
Qed.

Lemma Function_init_attributes_witness :
  let obj := the_object ScriptSamples.sample_function_object in
  ob_class obj = ClsFunction
  /\ ob_dict obj !! "file_name" = Some (AStr "/work/job")
  /\ ob_dict obj !! "pickle_file" = Some (AStr "job.pickle.in")
  /\ ob_dict obj !! "outfile" = Some (AStr "job.pickle.out")
  /\ ob_dict obj !! "function"
     = Some (AFunc (set_fn_module ScriptSamples.posix_runtime "analysis"
            ScriptSamples.work_func))
  /\ ob_dict obj !! "args" = Some ANone
  /\ (exists body,
        ob_dict obj !! "script"
        = Some (AStr ("#!" +:+ "/usr/bin/python3" +:+ nl +:+ body)))
  /\ ob_dict obj !! "written" = None
  /\ ob_dict obj !! "exists" = None.
Proof.
  apply (Function_init_attributes ScriptSamples.posix_runtime
           ScriptSamples.insertion_order "job" ScriptSamples.work_func None
           ArgNone None None
           (set_fn_module ScriptSamples.posix_runtime "analysis"
            ScriptSamples.work_func)
           (the_object ScriptSamples.sample_function_object)).
  vm_compute. reflexivity.
Defined.

(** X14. A function whose module has no file (a built-in or an
    interactive session), or a file with an empty base name, cannot be
    packaged: after the import strings are chosen the constructor reads
    the local [bimp1], which no branch assigned, and raises
    UnboundLocalError; the function object is left as it was. *)
Theorem Function_init_without_file rt so file_name function args imports pf
    outf rootmod :
  fn_rootmod function = Some rootmod ->
  (mod_file rootmod = None
   \/ exists file, mod_file rootmod = Some file
        /\ fst (path_splitext rt (snd (path_split rt file))) = "") ->
  Function__init__ rt so file_name function args imports pf outf
  = (function, Raise (UnboundLocalError "bimp1")).
Proof.
  intros Hmod Hfile. unfold Function__init__. rewrite Hmod.
  unfold module_path.
  destruct Hfile as [Hfile|(file & Hfile & Hstem)]; rewrite Hfile.
  - unfold module_import_string, import_submitted. cbn [opt_truthy].
    cbn [clobber_module].
    by destruct (negb _ && negb _).
  - destruct (path_split rt file) as [dir base]. cbn [fst snd] in *.
    unfold module_import_string, import_submitted, clobber_module.
    rewrite Hstem. cbn [opt_truthy truthy String.eqb negb andb].
    by destruct (negb _ && negb _).
Qed.

Lemma Function_init_without_file_witness :
  Function__init__ ScriptSamples.posix_runtime ScriptSamples.insertion_order
    "job" ScriptSamples.builtin_func None ArgNone None None
  = (ScriptSamples.builtin_func, Raise (UnboundLocalError "bimp1")).
Proof.
  apply (Function_init_without_file ScriptSamples.posix_runtime
           ScriptSamples.insertion_order "job" ScriptSamples.builtin_func
           None ArgNone None None ScriptSamples.builtins_module).
  - reflexivity.
  - left. reflexivity.
Defined.

(** X15. Hints given as a tuple are accepted by the type test and then
    fail: when the module's file is found and at least one module is
    among the globals, the constructor raises AttributeError at the first
    [imports.append]. *)
Theorem Function_init_tuple_hints rt so file_name function args e l pf outf
    rootmod file :
  fn_rootmod function = Some rootmod ->
  mod_file rootmod = Some file ->
  fst (path_splitext rt (snd (path_split rt file))) <> "" ->
  filter (fun p => fst p = "__main__" ∨ startswith "__" (fst p) = false)
         (module_globals rt) <> [] ->
  snd (Function__init__ rt so file_name function args (ArgTuple (e :: l))
         pf outf)
  = Raise (AttributeError "'tuple' object has no attribute 'append'").
Proof.
  intros Hmod Hfile Hstem Hglob. unfold Function__init__. rewrite Hmod.
  unfold module_path. rewrite Hfile.
  destruct (path_split rt file) as [dir base]. cbn [fst snd] in *.
  apply truthy_spec in Hstem.
  unfold module_import_string, import_submitted. cbn [opt_truthy].
  rewrite Hstem.
  unfold collect_imports, append_globals. cbn [normalise_imports fst snd].
  destruct (filter _ (module_globals rt)) as [|g gs]; [done|].
  match goal with
  | |- context [if negb ?c then _ else _] => destruct (negb c)
  end; reflexivity.
Qed.

Lemma Function_init_tuple_hints_witness :
  snd (Function__init__ ScriptSamples.posix_runtime
         ScriptSamples.insertion_order "job" ScriptSamples.work_func None
         (ArgTuple [ImpName "numpy"]) None None)
  = Raise (AttributeError "'tuple' object has no attribute 'append'").
Proof.
  apply (Function_init_tuple_hints ScriptSamples.posix_runtime
           ScriptSamples.insertion_order "job" ScriptSamples.work_func None
           (ImpName "numpy") [] None None ScriptSamples.main_module
           "/work/analysis.py").
  - reflexivity.
  - reflexivity.
  - discriminate.
  - vm_compute. discriminate.
Defined.

End Constructor.

(** ** Rendering of import statements *)

Section Rendering.
Import PyString SubmissionScripts.

Lemma append_assoc (a b c : string) : (a +:+ b) +:+ c = a +:+ (b +:+ c).
Proof.
  induction a as [|x a IH]; [done|].
  change (String x ((a +:+ b) +:+ c) = String x (a +:+ (b +:+ c))).
  f_equal. exact IH.
Qed.

Lemma split_on_nonempty (c : ascii) (s : string) : split_on c s <> [].
Proof.
  destruct s as [|a s]; [done|]. cbn.
  destruct (Ascii.eqb a c); [done|]. by destruct (split_on c s).
Qed.

(** [sep.join(s.split(sep)) == s] *)
Lemma join_split_on (c : ascii) (s : string) :
  join (String c "") (split_on c s) = s.
Proof.
  induction s as [|a s IH]; [done|]. cbn [split_on].
  pose proof (split_on_nonempty c s) as Hne.
  destruct (Ascii.eqb a c) eqn:Hac.
  - apply Ascii.eqb_eq in Hac. subst a.
    destruct (split_on c s) as [|w ws]; [done|].
    change (join (String c "") ("" :: w :: ws))
      with (String c (join (String c "") (w :: ws))).
    by rewrite IH.
  - destruct (split_on c s) as [|w ws]; [done|].
    destruct ws as [|w' ws].
    + cbn in *. by rewrite IH.
    + change (join (String c "") (String a w :: w' :: ws))
        with (String a (join (String c "") (w :: w' :: ws))).
      by rewrite IH.
Qed.

Lemma length_split_on (c : ascii) (s : string) :
  length (split_on c s) = S (count_char c s).
Proof.
  induction s as [|a s IH]; [done|]. cbn [split_on count_char].
  pose proof (split_on_nonempty c s) as Hne.
  destruct (Ascii.eqb a c).
  - cbn. by rewrite IH.
  - destruct (split_on c s) as [|w ws]; [done|]. cbn in *. lia.
Qed.

(** No piece of a split contains the separator. *)
Lemma split_on_pieces (c : ascii) (s : string) :
  Forall (fun w => count_char c w = 0) (split_on c s).
Proof.
  induction s as [|a s IH]; [by repeat constructor|]. cbn [split_on].
  pose proof (split_on_nonempty c s) as Hne.
  destruct (Ascii.eqb a c) eqn:Hac.
  - by constructor.
  - destruct (split_on c s) as [|w ws]; [done|].
    inversion IH as [|? ? Hw Hws]; subst.
    constructor; [|exact Hws]. cbn. by rewrite Hac.
Qed.

Lemma join_removelast_last (sep : string) (l : list string) :
  2 <= length l ->
  join sep (removelast l) +:+ sep +:+ List.last l "" = join sep l.
Proof.
  induction l as [|x l IH]; [cbn; lia|]. intros Hlen.
  destruct l as [|y r]; [cbn in Hlen; lia|].
  destruct r as [|z r].
  - reflexivity.
  - specialize (IH ltac:(cbn; lia)).
    change (removelast (x :: y :: z :: r))
      with (x :: removelast (y :: z :: r)).
    change (List.last (x :: y :: z :: r) "")
      with (List.last (y :: z :: r) "").
    change (join sep (x :: y :: z :: r))
      with (x +:+ sep +:+ join sep (y :: z :: r)).
    rewrite <- IH.
    destruct (removelast (y :: z :: r)) as [|u us] eqn:E.
    + cbn in E. destruct (removelast (z :: r)); discriminate.
    + change (join sep (x :: u :: us))
        with (x +:+ sep +:+ join sep (u :: us)).
      by rewrite !append_assoc.
Qed.

Lemma last_in_pieces (c : ascii) (s : string) :
  count_char c (List.last (split_on c s) "") = 0.
Proof.
  pose proof (split_on_pieces c s) as H.
  pose proof (split_on_nonempty c s) as Hne.
  induction (split_on c s) as [|w ws IH]; [done|].
  inversion H as [|? ? Hw Hws]; subst.
  destruct ws as [|w' ws]; [exact Hw|].
  apply IH; [exact Hws|done].
Qed.

Lemma hd_in_pieces (c : ascii) (s : string) :
  count_char c (hd "" (split_on c s)) = 0.
Proof.
  pose proof (split_on_pieces c s) as H.
  destruct (split_on c s) as [|w ws]; [done|].
  by inversion H.
Qed.

Lemma startswith_at (s : string) :
  startswith "@" s = true -> exists s', s = String "@"%char s'.
Proof.
  unfold startswith. destruct s as [|c s'].
  - intros H. cbv in H. discriminate H.
  - change (String.prefix "@" (String c s'))
      with (if ascii_dec "@" c then String.prefix "" s' else false).
    destruct (ascii_dec "@" c) as [<-|]; [eauto|].
    intros H. discriminate H.
Qed.

Lemma render_import_private imp s :
  render_import imp = Some s -> private_marker imp = false.
Proof.
  destruct imp as [n|iname name]; cbn [render_import private_marker].
  - destruct (startswith "@" n) eqn:Hat; [|done].
    destruct (startswith_at n Hat) as [n' ->].
    case_bool_decide; [discriminate|]. cbn. discriminate.
  - case_bool_decide; [discriminate|].
    destruct (startswith "@" name || startswith "@" iname); [discriminate|].
    done.
Qed.

Lemma render_import_guarded imp s :
  render_import imp = Some s ->
  exists stmt, s = guarded stmt \/ s = guarded stmt +:+ nl.
Proof.
  destruct imp as [n|iname name]; cbn [render_import];
    repeat match goal with
           | |- context [if ?c then _ else _] => destruct c
           end; intros [= <-]; eauto.
Qed.

(** The text of a guarded statement, spelled out. *)
Lemma guarded_text (stmt : string) :
  guarded stmt
  = "try:" +:+ nl +:+ "    " +:+ stmt +:+ nl +:+ "except ImportError:"
    +:+ nl +:+ "    pass"
  /\ guarded stmt +:+ nl
     = "try:" +:+ nl +:+ "    " +:+ stmt +:+ nl +:+ "except ImportError:"
       +:+ nl +:+ "    pass" +:+ nl.
Proof.
  split; [reflexivity|]. unfold guarded.
  change ("try:" +:+ nl +:+ "    " +:+ stmt +:+ nl +:+ "except ImportError:"
          +:+ nl +:+ "    pass")
    with (("try:" +:+ nl +:+ "    ") +:+ stmt +:+ nl +:+ "except ImportError:"
          +:+ nl +:+ "    pass").
  change ("try:" +:+ nl +:+ "    " +:+ stmt +:+ nl +:+ "except ImportError:"
          +:+ nl +:+ "    pass" +:+ nl)
    with (("try:" +:+ nl +:+ "    ") +:+ stmt +:+ nl +:+ "except ImportError:"
          +:+ nl +:+ "    pass" +:+ nl).
  rewrite !append_assoc. reflexivity.
Qed.

(** X18. Every statement of the import chain is a guarded import: its
    text is [try:], a line with an indented statement, [except
    ImportError:] and an indented [pass], with or without a final
    newline, and it is the rendering of an entry of the import list that
    does not carry the [@] marker of an internal name. *)
Theorem import_chain_statements so imports s :
  set_order_valid so ->
  s ∈ import_chain so imports ->
  exists imp stmt,
    imp ∈ imports
    /\ render_import imp = Some s
    /\ private_marker imp = false
    /\ (s = "try:" +:+ nl +:+ "    " +:+ stmt +:+ nl
            +:+ "except ImportError:" +:+ nl +:+ "    pass"
        \/ s = "try:" +:+ nl +:+ "    " +:+ stmt +:+ nl
               +:+ "except ImportError:" +:+ nl +:+ "    pass" +:+ nl).
Proof.
  intros Hso Hs.
  rewrite (import_chain_perm so imports Hso) in Hs.
  rewrite elem_of_remove_dups in Hs. unfold filtered_imports in Hs.
  apply list_elem_of_omap in Hs. destruct Hs as (imp & Himp & Hrender).
  rewrite (sorted_imports_perm so imports Hso) in Himp.
  rewrite elem_of_remove_dups in Himp.
  destruct (render_import_guarded imp s Hrender) as [stmt Hstmt].
  destruct (guarded_text stmt) as [Hplain Hnl].
  exists imp, stmt. split; [exact Himp|]. split; [exact Hrender|].
  split; [by apply (render_import_private imp s)|].
  destruct Hstmt as [->| ->]; [left; exact Hplain|right; exact Hnl].
Qed.

Lemma import_chain_statements_witness :
  exists imp stmt,
    imp ∈ [ImpName "@internal"; ImpPair "np" "numpy"]
    /\ render_import imp
       = Some ("try:" +:+ nl +:+ "    import numpy as np" +:+ nl
               +:+ "except ImportError:" +:+ nl +:+ "    pass" +:+ nl)
    /\ private_marker imp = false
    /\ ("try:" +:+ nl +:+ "    import numpy as np" +:+ nl
        +:+ "except ImportError:" +:+ nl +:+ "    pass" +:+ nl
        = "try:" +:+ nl +:+ "    " +:+ stmt +:+ nl
          +:+ "except ImportError:" +:+ nl +:+ "    pass"
        \/ "try:" +:+ nl +:+ "    import numpy as np" +:+ nl
           +:+ "except ImportError:" +:+ nl +:+ "    pass" +:+ nl
           = "try:" +:+ nl +:+ "    " +:+ stmt +:+ nl
             +:+ "except ImportError:" +:+ nl +:+ "    pass" +:+ nl).
Proof.
  apply (import_chain_statements ScriptSamples.reverse_order
           [ImpName "@internal"; ImpPair "np" "numpy"]
           ("try:" +:+ nl +:+ "    import numpy as np" +:+ nl
            +:+ "except ImportError:" +:+ nl +:+ "    pass" +:+ nl)).
  - split; intros l; cbn; symmetry; apply Permutation_rev.
  - vm_compute. apply list_elem_of_In. left. reflexivity.
Defined.

(** X16. The alias is kept. A pair that passes the filter and whose
    module name has no dot renders to [import name] when the alias is
    the name, and to [import name as alias] when it is not. *)
Theorem render_pair_keeps_alias iname name :
  iname ∉ ignore_list ->
  startswith "@" name = false ->
  startswith "@" iname = false ->
  count_char "."%char name = 0 ->
  render_import (ImpPair iname name)
  = Some (guarded (if String.eqb iname name
                   then "import " +:+ name
                   else "import " +:+ name +:+ " as " +:+ iname) +:+ nl).
Proof.
  intros Hign Hn Hi Hdot. cbn [render_import].
  rewrite bool_decide_false by done. rewrite Hn, Hi. cbn [orb].
  rewrite length_split_on, Hdot.
  destruct (String.eqb iname name); reflexivity.
Qed.

Lemma render_pair_keeps_alias_witness :
  render_import (ImpPair "np" "numpy")
  = Some (guarded (if String.eqb "np" "numpy"
                   then "import " +:+ "numpy"
                   else "import " +:+ "numpy" +:+ " as " +:+ "np") +:+ nl).
Proof.
  apply (render_pair_keeps_alias "np" "numpy").
  - vm_compute. intros H. apply list_elem_of_In in H. cbn in H.
    repeat (destruct H as [H|H]; [discriminate|]). exact H.
  - reflexivity.
  - reflexivity.
  - reflexivity.
Defined.

(** Splitting after a first component that has no separator. *)
Lemma split_on_first (c : ascii) (top rest : string) :
  count_char c top = 0 ->
  split_on c (top +:+ String c rest) = top :: split_on c rest.
Proof.
  induction top as [|a t IH]; intros Hcount.
  - change ("" +:+ String c rest) with (String c rest). cbn [split_on].
    by rewrite Ascii.eqb_refl.
  - cbn [count_char] in Hcount.
    change (String a t +:+ String c rest) with (String a (t +:+ String c rest)).
    cbn [split_on].
    destruct (Ascii.eqb a c); [cbn in Hcount; lia|].
    by rewrite IH by (cbn in Hcount; lia).
Qed.

(** X17. A pair whose module name is dotted renders to a from-import
    that spells the module's own name. When the name is [top.alias],
    with no dot in [top], the statement is [from top import alias] in
    its try/except frame. When the name is not of that shape, the
    statement is [from pkg import leaf as alias], where [pkg.leaf] is
    the name and [leaf], its last component, has no dot. *)
Theorem render_dotted_pair iname name :
  iname ∉ ignore_list ->
  startswith "@" name = false ->
  startswith "@" iname = false ->
  iname <> name ->
  0 < count_char "."%char name ->
  (forall top,
     name = top +:+ "." +:+ iname ->
     count_char "."%char top = 0 ->
     render_import (ImpPair iname name)
     = Some ("try:" +:+ nl +:+ "    from " +:+ top +:+ " import " +:+ iname
             +:+ nl +:+ "except ImportError:" +:+ nl +:+ "    pass" +:+ nl))
  /\ ((forall top,
         count_char "."%char top = 0 -> name <> top +:+ "." +:+ iname) ->
      exists pkg leaf,
        name = pkg +:+ "." +:+ leaf
        /\ count_char "."%char leaf = 0
        /\ render_import (ImpPair iname name)
           = Some ("try:" +:+ nl +:+ "    from " +:+ pkg +:+ " import "
                   +:+ leaf +:+ " as " +:+ iname
                   +:+ nl +:+ "except ImportError:" +:+ nl +:+ "    pass"
                   +:+ nl)).
Proof.
  intros Hign Hn Hi Hne Hdot.
  assert (Hrender : render_import (ImpPair iname name)
            = let names := split_on "." name in
              if negb (String.eqb (join "." (tail names)) iname)
              then Some (guarded ("from " +:+ join "." (removelast names)
                                  +:+ " import " +:+ List.last names ""
                                  +:+ " as " +:+ iname) +:+ nl)
              else Some (guarded ("from " +:+ hd "" names +:+ " import "
                                  +:+ join "." (tail names)) +:+ nl)).
  { cbn [render_import].
    rewrite bool_decide_false by done. rewrite Hn, Hi. cbn [orb].
    apply String.eqb_neq in Hne. rewrite Hne. cbn [negb].
    replace (Nat.ltb 1 (length (split_on "." name))) with true; [done|].
    symmetry. apply Nat.ltb_lt. rewrite length_split_on. lia. }
  rewrite Hrender. cbv zeta. split.
  - intros top -> Htop.
    change (top +:+ "." +:+ iname) with (top +:+ String "." iname).
    rewrite (split_on_first "." top iname Htop). cbn [tail hd].
    rewrite join_split_on, String.eqb_refl. cbn [negb].
    f_equal. rewrite (proj2 (guarded_text _)).
    change ("try:" +:+ nl +:+ "    from " +:+ top +:+ " import " +:+ iname
            +:+ nl +:+ "except ImportError:" +:+ nl +:+ "    pass" +:+ nl)
      with ("try:" +:+ nl +:+ "    " +:+ "from " +:+ top +:+ " import "
            +:+ iname +:+ nl +:+ "except ImportError:" +:+ nl +:+ "    pass"
            +:+ nl).
    do 3 f_equal.
    change ("from " +:+ top +:+ " import " +:+ iname)
      with ("from " +:+ (top +:+ " import " +:+ iname)).
    change ("from " +:+ top +:+ " import " +:+ iname +:+ nl
            +:+ "except ImportError:" +:+ nl +:+ "    pass" +:+ nl)
      with ("from " +:+ (top +:+ " import " +:+ iname +:+ nl
            +:+ "except ImportError:" +:+ nl +:+ "    pass" +:+ nl)).
    rewrite !append_assoc. reflexivity.
  - intros Hshape.
    pose proof (length_split_on "." name) as Hlen.
    pose proof (join_split_on "." name) as Hjoin.
    pose proof (last_in_pieces "." name) as Hlast.
    pose proof (hd_in_pieces "." name) as Hhd.
    set (names := split_on "." name) in *.
    assert (H2 : 2 <= length names) by lia.
    destruct (String.eqb (join "." (tail names)) iname) eqn:Hrest; cbn [negb].
    + exfalso. apply String.eqb_eq in Hrest.
      apply (Hshape (hd "" names) Hhd).
      rewrite <- Hrest, <- Hjoin.
      destruct names as [|x [|y r]]; [cbn in H2; lia..|]. reflexivity.
    + exists (join "." (removelast names)), (List.last names "").
      split; [|split; [exact Hlast|]].
      * rewrite <- Hjoin at 1. symmetry. by apply join_removelast_last.
      * f_equal. rewrite (proj2 (guarded_text _)).
        change ("try:" +:+ nl +:+ "    from " +:+ join "." (removelast names)
                +:+ " import " +:+ List.last names "" +:+ " as " +:+ iname
                +:+ nl +:+ "except ImportError:" +:+ nl +:+ "    pass" +:+ nl)
          with ("try:" +:+ nl +:+ "    " +:+ "from "
                +:+ (join "." (removelast names)
                     +:+ " import " +:+ List.last names "" +:+ " as " +:+ iname
                     +:+ nl +:+ "except ImportError:" +:+ nl +:+ "    pass"
                     +:+ nl)).
        do 3 f_equal.
        change ("from " +:+ join "." (removelast names) +:+ " import "
                +:+ List.last names "" +:+ " as " +:+ iname)
          with ("from " +:+ (join "." (removelast names) +:+ " import "
                +:+ List.last names "" +:+ " as " +:+ iname)).
        rewrite !append_assoc. reflexivity.
Qed.

Lemma render_dotted_pair_witness :
  render_import (ImpPair "path" "os.path")
  = Some ("try:" +:+ nl +:+ "    from " +:+ "os" +:+ " import " +:+ "path"
          +:+ nl +:+ "except ImportError:" +:+ nl +:+ "    pass" +:+ nl)
  /\ exists pkg leaf,
       "matplotlib.pyplot" = pkg +:+ "." +:+ leaf
       /\ count_char "."%char leaf = 0
       /\ render_import (ImpPair "plt" "matplotlib.pyplot")
          = Some ("try:" +:+ nl +:+ "    from " +:+ pkg +:+ " import "
                  +:+ leaf +:+ " as " +:+ "plt"
                  +:+ nl +:+ "except ImportError:" +:+ nl +:+ "    pass"
                  +:+ nl).
Proof.
  assert (Hnot : forall a, In a ["path"; "plt"] -> a ∉ ignore_list).
  { intros a Ha H. apply list_elem_of_In in H. cbn in Ha, H.
    destruct Ha as [<-|[<-|[]]];
      repeat (destruct H as [H|H]; [discriminate|]); exact H. }
  split.
  - apply (proj1 (render_dotted_pair "path" "os.path"
                    (Hnot "path" ltac:(cbn; tauto)) eq_refl eq_refl
                    ltac:(discriminate) ltac:(cbn; lia)) "os");
      reflexivity.
  - apply (proj2 (render_dotted_pair "plt" "matplotlib.pyplot"
                    (Hnot "plt" ltac:(cbn; tauto)) eq_refl eq_refl
                    ltac:(discriminate) ltac:(cbn; lia))).
    intros top Htop E.
    apply (f_equal (split_on ".")) in E.
    change (top +:+ "." +:+ "plt") with (top +:+ String "." "plt") in E.
    rewrite (split_on_first "." top "plt" Htop) in E.
    vm_compute in E. discriminate E.
Defined.

End Rendering.
